(** * A line-delimited JSON-RPC tool server and its client

    Shallow embedding of [file_directory_mcp_server.py] (class [MCPServer])
    and of [mcp_client.py] (class [MCPClient]).

    Conventions.
    - A Python [str] is a Rocq [string] holding its UTF-8 encoding, so that
      the byte-wise order of [String.compare] is Python's code point order.
    - A Python object that travels through [json.loads] / [json.dumps] is a
      value of [JSON]; a [dict] is an association list in insertion order.
    - Everything the two files call but do not define (the file system behind
      [pathlib], the [json] codec, [repr], the child process) is a field of a
      [World] record and may answer or raise as it likes.
    - Python code runs in the monad [M]: it threads the server object and a
      chronological log of the calls made to the outside, and it may raise. *)

From Stdlib Require Import String Ascii List ZArith Bool Lia DecimalString.
From Stdlib Require Import Sorted Permutation.
From Stdlib Require OrderedTypeEx.
Import ListNotations.
Local Open Scope string_scope.
Local Open Scope Z_scope.

(** ** Python values *)

Module Py.

#[local] Set Warnings "-register-all".

Inductive JSON : Type :=
| JNull
| JBool (b : bool)
| JInt (n : Z)
| JFloat (bits : Z)      (* a float, kept as its IEEE-754 bit pattern *)
| JStr (s : string)
| JList (l : list JSON)
| JDict (d : list (string * JSON)).

Definition nl : string := String (ascii_of_nat 10) "".

(** [d.get(key, default)] on the association list of a dict. *)
Fixpoint dict_get (d : list (string * JSON)) (key : string) (default : JSON) : JSON :=
  match d with
  | [] => default
  | (k, v) :: rest => if String.eqb k key then v else dict_get rest key default
  end.

(** [key in d]. *)
Fixpoint dict_has (d : list (string * JSON)) (key : string) : bool :=
  match d with
  | [] => false
  | (k, _) :: rest => String.eqb k key || dict_has rest key
  end.

Definition has_key (key : string) (v : JSON) : bool :=
  match v with JDict d => dict_has d key | _ => false end.

(** [v[key]] when [v] is a dict that has the key. *)
Definition field (key : string) (v : JSON) : option JSON :=
  match v with
  | JDict d => if dict_has d key then Some (dict_get d key JNull) else None
  | _ => None
  end.

(** [v == lit] for a string literal [lit]: only a [str] can be equal to it. *)
Definition eq_str (v : JSON) (lit : string) : bool :=
  match v with JStr s => String.eqb s lit | _ => false end.

(** [type(v).__name__]. *)
Definition type_name (v : JSON) : string :=
  match v with
  | JNull => "NoneType"
  | JBool _ => "bool"
  | JInt _ => "int"
  | JFloat _ => "float"
  | JStr _ => "str"
  | JList _ => "list"
  | JDict _ => "dict"
  end.

(** The decimal text of an [int], as an f-string prints it. *)
Definition str_of_int (n : Z) : string := NilZero.string_of_int (Z.to_int n).

(** Truth value of an object in [if v:]. *)
Definition truthy (v : JSON) : bool :=
  match v with
  | JNull => false
  | JBool b => b
  | JInt n => negb (n =? 0)
  | JFloat bits => negb ((bits =? 0) || (bits =? 2 ^ 63))
  | JStr s => negb (String.eqb s "")
  | JList l => match l with [] => false | _ => true end
  | JDict d => match d with [] => false | _ => true end
  end.

(** [sub in s] on strings. *)
Fixpoint contains (sub s : string) : bool :=
  String.prefix sub s ||
  match s with
  | EmptyString => false
  | String _ rest => contains sub rest
  end.

(** [sorted(l)] on a list of strings; the order is total and equal strings
    are indistinguishable, so insertion sort returns what Python's sort does. *)
Fixpoint insert_sorted (x : string) (l : list string) : list string :=
  match l with
  | [] => [x]
  | y :: rest => if String.leb x y then x :: l else y :: insert_sorted x rest
  end.

Fixpoint sorted (l : list string) : list string :=
  match l with
  | [] => []
  | x :: rest => insert_sorted x (sorted rest)
  end.

(** *** [str.strip()]

    The characters Python strips are those of [str.isspace]: U+0009..U+000D,
    U+001C..U+0020, U+0085, U+00A0, U+1680, U+2000..U+200A, U+2028, U+2029,
    U+202F, U+205F and U+3000.  [ws_len s] is the number of bytes of the
    white space character [s] starts with, or 0. *)

Definition ws_len (s : string) : nat :=
  match s with
  | EmptyString => O
  | String c rest =>
      let n := N.to_nat (N_of_ascii c) in
      if ((9 <=? n) && (n <=? 13) || (28 <=? n) && (n <=? 32))%nat then 1%nat
      else
        match rest with
        | EmptyString => O
        | String c1 rest1 =>
            let n1 := N.to_nat (N_of_ascii c1) in
            if ((n =? 194) && ((n1 =? 133) || (n1 =? 160)))%nat then 2%nat
            else
              match rest1 with
              | EmptyString => O
              | String c2 _ =>
                  let n2 := N.to_nat (N_of_ascii c2) in
                  if ((n =? 225) && (n1 =? 154) && (n2 =? 128)
                      || (n =? 226) && (n1 =? 128)
                         && ((128 <=? n2) && (n2 <=? 138)
                             || (n2 =? 168) || (n2 =? 169) || (n2 =? 175))
                      || (n =? 226) && (n1 =? 129) && (n2 =? 159)
                      || (n =? 227) && (n1 =? 128) && (n2 =? 128))%nat
                  then 3%nat else O
              end
        end
  end.

Fixpoint drop (n : nat) (s : string) : string :=
  match n, s with
  | O, _ => s
  | S m, EmptyString => EmptyString
  | S m, String _ rest => drop m rest
  end.

Fixpoint lstrip_fuel (fuel : nat) (s : string) : string :=
  match fuel with
  | O => s
  | S f => match ws_len s with
           | O => s
           | n => lstrip_fuel f (drop n s)
           end
  end.

Definition lstrip (s : string) : string := lstrip_fuel (String.length s) s.

(** Only white space is left when [lstrip] eats everything. *)
Definition all_ws (s : string) : bool := String.eqb (lstrip s) "".

Fixpoint rstrip (s : string) : string :=
  match s with
  | EmptyString => EmptyString
  | String c rest => if all_ws s then EmptyString else String c (rstrip rest)
  end.

Definition strip (s : string) : string := rstrip (lstrip s).

(** *** Exceptions and outcomes *)

Inductive exn_class : Type :=
| UnicodeDecodeError
| JSONDecodeError
| AttributeError
| TypeError
| ValueError
| RuntimeError
| OSError.

(** An exception object: its class and [str(e)]. *)
Record exn : Type := Exn { exn_cls : exn_class; exn_str : string }.

Inductive outcome (A : Type) : Type :=
| Ok (a : A)
| Raise (e : exn).
Arguments Ok {A} a.
Arguments Raise {A} e.

Definition is_class (c : exn_class) (e : exn) : bool :=
  match c, exn_cls e with
  | UnicodeDecodeError, UnicodeDecodeError
  | JSONDecodeError, JSONDecodeError
  | AttributeError, AttributeError
  | TypeError, TypeError
  | ValueError, ValueError
  | RuntimeError, RuntimeError
  | OSError, OSError => true
  | _, _ => false
  end.

(** *** The monad of Python code

    [St] is the state the code threads: an object and a log. *)

Definition M (St A : Type) : Type := St -> outcome A * St.

Definition ret {St A} (a : A) : M St A := fun s => (Ok a, s).

Definition bind {St A B} (m : M St A) (k : A -> M St B) : M St B :=
  fun s => match m s with
           | (Ok a, s') => k a s'
           | (Raise e, s') => (Raise e, s')
           end.

Definition raise {St A} (e : exn) : M St A := fun s => (Raise e, s).

(** A library call that touches nothing: it answers or raises. *)
Definition lift {St A} (answer : outcome A) : M St A := fun s => (answer, s).

(** [try: m  except ...: handler]; a handler answering [None] does not
    match the exception, which goes on. *)
Definition try_except {St A} (m : M St A) (handler : exn -> option (M St A)) : M St A :=
  fun s => match m s with
           | (Ok a, s') => (Ok a, s')
           | (Raise e, s') =>
               match handler e with
               | Some h => h s'
               | None => (Raise e, s')
               end
           end.

End Py.
Export Py.

Notation "x <- m ;; k" := (bind m (fun x => k))
  (at level 61, m at next level, right associativity).
Notation "m ;;; k" := (bind m (fun _ => k))
  (at level 61, right associativity).

(** ** The server: [file_directory_mcp_server.py] *)

Module Server.

(** A [pathlib.Path]: built from a string, or a child [p / name] as
    [iterdir] yields them. *)
Inductive PurePath : Type :=
| Path (s : string)
| Div (p : PurePath) (name : string).

(** [item.name]. *)
Definition name (p : PurePath) : string :=
  match p with
  | Path s => s
  | Div _ n => n
  end.

(** What the server calls and does not define. *)
Record World : Type := {
  fs_exists : PurePath -> outcome bool;          (* Path.exists() *)
  fs_is_dir : PurePath -> outcome bool;          (* Path.is_dir() *)
  fs_is_file : PurePath -> outcome bool;         (* Path.is_file() *)
  fs_st_size : PurePath -> outcome Z;            (* Path.stat().st_size *)
  fs_iterdir : PurePath -> outcome (list string);(* names of the children *)
  fs_open : PurePath -> outcome unit;            (* open(p, 'r', encoding='utf-8') *)
  fs_read : PurePath -> outcome (list Byte.byte);(* the bytes f.read() gets *)
  utf8_decode : list Byte.byte -> option string; (* None: not valid UTF-8 *)
  decode_error_str : list Byte.byte -> string;   (* str() of the UnicodeDecodeError *)
  path_type_error_str : JSON -> string;          (* str() of the TypeError of Path(v) *)
  py_repr : JSON -> string;                      (* str() of a float, list or dict *)
  json_loads : string -> outcome JSON;
  json_dumps : JSON -> string
}.

(** Calls to the outside, in the order they happen. *)
Inductive event : Type :=
| Stdin (line : string)          (* a line read from sys.stdin *)
| Stdout (line : string)         (* print(line) *)
| StdoutFlush                    (* sys.stdout.flush() *)
| Stderr (line : string)         (* print(line, file=sys.stderr) *)
| FsExists (p : PurePath)
| FsIsDir (p : PurePath)
| FsIsFile (p : PurePath)
| FsStat (p : PurePath)
| FsIterdir (p : PurePath)
| FsOpen (p : PurePath)
| FsRead (p : PurePath).

(** The server object ([self]) and the log. *)
Record state : Type := {
  self_tools : list (string * JSON);
  log : list event
}.

Definition M : Type -> Type := Py.M state.

(** Make a call to the outside: log it, then answer as the world does. *)
Definition call {A} (ev : event) (answer : outcome A) : M A :=
  fun s => (answer, {| self_tools := self_tools s; log := log s ++ [ev] |}).

Definition get_tools : M (list (string * JSON)) :=
  fun s => (Ok (self_tools s), s).

Section WithWorld.

Variable w : World.

(** [str(v)], as an f-string formats [v]. *)
Definition py_str (v : JSON) : string :=
  match v with
  | JNull => "None"
  | JBool true => "True"
  | JBool false => "False"
  | JInt n => str_of_int n
  | JStr s => s
  | _ => py_repr w v
  end.

(** [v.get(key, default)]: only a dict has the method. *)
Definition py_get (v : JSON) (key : string) (default : JSON) : M JSON :=
  match v with
  | JDict d => ret (dict_get d key default)
  | _ => raise (Exn AttributeError
                  ("'" ++ type_name v ++ "' object has no attribute 'get'"))
  end.

(** [Path(v)]. *)
Definition mkPath (v : JSON) : M PurePath :=
  match v with
  | JStr s => ret (Path s)
  | _ => raise (Exn TypeError (path_type_error_str w v))
  end.

Definition exists_ (p : PurePath) : M bool := call (FsExists p) (fs_exists w p).
Definition is_dir (p : PurePath) : M bool := call (FsIsDir p) (fs_is_dir w p).
Definition is_file (p : PurePath) : M bool := call (FsIsFile p) (fs_is_file w p).
Definition st_size (p : PurePath) : M Z := call (FsStat p) (fs_st_size w p).
Definition iterdir (p : PurePath) : M (list string) := call (FsIterdir p) (fs_iterdir w p).
Definition open (p : PurePath) : M unit := call (FsOpen p) (fs_open w p).

(** [f.read()] on a file opened as UTF-8 text. *)
Definition read (p : PurePath) : M string :=
  bytes <- call (FsRead p) (fs_read w p) ;;
  match utf8_decode w bytes with
  | Some content => ret content
  | None => raise (Exn UnicodeDecodeError (decode_error_str w bytes))
  end.

Definition print (line : string) : M unit := call (Stdout line) (Ok tt).
Definition flush : M unit := call StdoutFlush (Ok tt).
Definition print_stderr (line : string) : M unit := call (Stderr line) (Ok tt).

(** [MCPServer.__init__]: the registry. *)
Definition tool_descriptor (tool description path_description : string) : JSON :=
  JDict [("name", JStr tool);
         ("description", JStr description);
         ("inputSchema",
          JDict [("type", JStr "object");
                 ("properties",
                  JDict [("path",
                          JDict [("type", JStr "string");
                                 ("description", JStr path_description)])]);
                 ("required", JList [JStr "path"])])].

Definition init_tools : list (string * JSON) :=
  [("list_files",
    tool_descriptor "list_files" "List files in a directory"
      "Directory path to list files from");
   ("read_file",
    tool_descriptor "read_file" "Read contents of a file" "File path to read")].

Definition MCPServer_init : state := {| self_tools := init_tools; log := [] |}.

(** The loop of [_list_files] over the children of [path_obj]. *)
Fixpoint list_loop (path_obj : PurePath) (items : list string) (files : list string)
  : M (list string) :=
  match items with
  | [] => ret files
  | n :: rest =>
      let item := Div path_obj n in
      f <- is_file item ;;
      if f then
        size <- st_size item ;;
        list_loop path_obj rest
          (files ++ ["📄 " ++ name item ++ " (" ++ str_of_int size ++ " bytes)"])
      else
        d <- is_dir item ;;
        if d then list_loop path_obj rest (files ++ ["📁 " ++ name item ++ "/"])
        else list_loop path_obj rest files
  end.

Definition _list_files (path : JSON) : M string :=
  try_except
    (path_obj <- mkPath path ;;
     e <- exists_ path_obj ;;
     if negb e then ret ("Error: Path '" ++ py_str path ++ "' does not exist")
     else
       d <- is_dir path_obj ;;
       if negb d then ret ("Error: Path '" ++ py_str path ++ "' is not a directory")
       else
         items <- iterdir path_obj ;;
         files <- list_loop path_obj items [] ;;
         match files with
         | [] => ret ("Directory '" ++ py_str path ++ "' is empty")
         | _ => ret ("Contents of '" ++ py_str path ++ "':" ++ nl
                     ++ String.concat nl (sorted files))
         end)
    (fun e => Some (ret ("Error listing files: " ++ exn_str e))).

Definition MAX_SIZE : Z := 1024 * 1024.

Definition _read_file (path : JSON) : M string :=
  try_except
    (path_obj <- mkPath path ;;
     e <- exists_ path_obj ;;
     if negb e then ret ("Error: File '" ++ py_str path ++ "' does not exist")
     else
       f <- is_file path_obj ;;
       if negb f then ret ("Error: '" ++ py_str path ++ "' is not a file")
       else
         size <- st_size path_obj ;;
         if size >? MAX_SIZE
         then ret ("Error: File '" ++ py_str path ++ "' is too large (max 1MB)")
         else
           open path_obj ;;;
           content <- read path_obj ;;
           ret ("Contents of '" ++ py_str path ++ "':" ++ nl ++ nl ++ content))
    (fun e =>
       if is_class UnicodeDecodeError e
       then Some (ret ("Error: Cannot read '" ++ py_str path
                       ++ "' - appears to be a binary file"))
       else Some (ret ("Error reading file: " ++ exn_str e))).

Definition response_result (request_id result : JSON) : JSON :=
  JDict [("jsonrpc", JStr "2.0"); ("id", request_id); ("result", result)].

Definition response_error (request_id : JSON) (code : Z) (message : string) : JSON :=
  JDict [("jsonrpc", JStr "2.0"); ("id", request_id);
         ("error", JDict [("code", JInt code); ("message", JStr message)])].

(** The result of a tool: one content item of type text. *)
Definition tool_result (result : string) : JSON :=
  JDict [("content",
          JList [JDict [("type", JStr "text"); ("text", JStr result)]])].

Definition handle_request (request : JSON) : M JSON :=
  method <- py_get request "method" JNull ;;
  params <- py_get request "params" (JDict []) ;;
  request_id <- py_get request "id" JNull ;;
  try_except
    (if eq_str method "initialize" then
       ret (response_result request_id
              (JDict [("protocolVersion", JStr "2024-11-05");
                      ("capabilities", JDict [("tools", JDict [])]);
                      ("serverInfo",
                       JDict [("name", JStr "file-manager-server");
                              ("version", JStr "1.0.0")])]))
     else if eq_str method "tools/list" then
       tools <- get_tools ;;
       ret (response_result request_id
              (JDict [("tools", JList (map snd tools))]))
     else if eq_str method "tools/call" then
       tool_name <- py_get params "name" JNull ;;
       arguments <- py_get params "arguments" (JDict []) ;;
       result <-
         (if eq_str tool_name "list_files" then
            path <- py_get arguments "path" (JStr ".") ;;
            _list_files path
          else if eq_str tool_name "read_file" then
            path <- py_get arguments "path" JNull ;;
            _read_file path
          else raise (Exn ValueError ("Unknown tool: " ++ py_str tool_name))) ;;
       ret (response_result request_id (tool_result result))
     else
       ret (response_error request_id (-32601)
              ("Method not found: " ++ py_str method)))
    (fun e => Some (ret (response_error request_id (-32603)
                           ("Internal error: " ++ exn_str e)))).

(** One turn of the loop of [run], after the line has been read. *)
Definition run_line (line : string) : M unit :=
  let line := strip line in
  if String.eqb line "" then ret tt
  else
    try_except
      (request <- lift (json_loads w line) ;;
       response <- handle_request request ;;
       print (json_dumps w response) ;;;
       flush)
      (fun e =>
         if is_class JSONDecodeError e then
           Some (print (json_dumps w
                          (response_error JNull (-32700)
                             ("Parse error: " ++ exn_str e))) ;;;
                 flush)
         else None).

(** The [for line in sys.stdin] loop: an exception that leaves [run_line]
    leaves the loop, and the process. *)
Fixpoint serve (stdin : list string) : M unit :=
  match stdin with
  | [] => ret tt
  | line :: rest =>
      call (Stdin line) (Ok tt) ;;;
      run_line line ;;;
      serve rest
  end.

Definition run (stdin : list string) : M unit :=
  print_stderr "🚀 MCP File Manager Server started!" ;;;
  print_stderr "💡 Send JSON-RPC requests via stdin" ;;;
  serve stdin.

End WithWorld.

(** *** Reading the log *)

(** [s] after the calls [evs]. *)
Definition extend (s : state) (evs : list event) : state :=
  {| self_tools := self_tools s; log := log s ++ evs |}.

(** [m], started in [s], ends with [r] after making the calls [evs]. *)
Definition runs {A} (m : M A) (s : state) (r : outcome A) (evs : list event) : Prop :=
  m s = (r, extend s evs).

(** A call to the file system, as opposed to the standard streams. *)
Definition fs_event (ev : event) : bool :=
  match ev with
  | Stdin _ | Stdout _ | StdoutFlush | Stderr _ => false
  | _ => true
  end.

(** What happens on standard input and output. *)
Definition io_event (ev : event) : bool :=
  match ev with
  | Stdin _ | Stdout _ | StdoutFlush => true
  | _ => false
  end.

Definition opens_file (ev : event) : bool :=
  match ev with
  | FsOpen _ | FsRead _ => true
  | _ => false
  end.

(** [m] always ends, changes nothing of the server object, and makes only
    calls that satisfy [allowed]. *)
Definition confined {A} (allowed : event -> bool) (m : M A) : Prop :=
  forall s, exists r evs, runs m s r evs /\ forallb allowed evs = true.

(** [m] always returns a value that satisfies [post], and talks to
    nothing but the file system. *)
Definition returns {A} (m : M A) (post : A -> Prop) : Prop :=
  forall s, exists a evs,
    runs m s (Ok a) evs /\ forallb fs_event evs = true /\ post a.

(** [m] talks to nothing but the file system, and a value it returns
    satisfies [post]. *)
Definition attempts {A} (m : M A) (post : A -> Prop) : Prop :=
  forall s, exists r evs,
    runs m s r evs /\ forallb fs_event evs = true /\
    match r with Ok a => post a | Raise _ => True end.

(** The two shapes of a response to the request [request_id]. *)
Definition answers (request_id resp : JSON) : Prop :=
  (exists result, resp = response_result request_id result) \/
  (exists code message, resp = response_error request_id code message).

(** The request object [d] is a [tools/call] of [tool] with [arguments]. *)
Definition calls_tool (d : list (string * JSON)) (tool : string)
    (arguments : list (string * JSON)) : Prop :=
  eq_str (dict_get d "method" JNull) "tools/call" = true /\
  exists params,
    dict_get d "params" (JDict []) = JDict params /\
    eq_str (dict_get params "name" JNull) tool = true /\
    dict_get params "arguments" (JDict []) = JDict arguments.

(** A line the loop is written for: blank, a JSON object, or no JSON. *)
Definition servable (w : World) (line : string) : Prop :=
  strip line = "" \/
  (exists d, json_loads w (strip line) = Ok (JDict d)) \/
  (exists e, json_loads w (strip line) = Raise e /\
             is_class JSONDecodeError e = true).

(** What is seen on standard input and output during the turn of [line]:
    the line is read, and when it is not blank one response is printed and
    flushed. *)
Definition turn (w : World) (line : string) (seen : list event) : Prop :=
  (strip line = "" /\ seen = [Stdin line]) \/
  (strip line <> "" /\
   exists resp, seen = [Stdin line; Stdout (json_dumps w resp); StdoutFlush]).

End Server.

(** ** The client: [mcp_client.py] *)

Module Client.

(** Calls to the outside, in the order they happen. *)
Inductive event : Type :=
| Popen (command : string)       (* subprocess.Popen(command.split(), ...) *)
| Write (data : string)          (* process.stdin.write(data) *)
| Flush                          (* process.stdin.flush() *)
| Readline                       (* process.stdout.readline() *)
| Print (line : string).         (* print(line) *)

(** What the client calls and does not define; the child process answers
    from what has happened so far. *)
Record World : Type := {
  popen : string -> outcome unit;
  proc_write : list event -> string -> outcome unit;
  proc_flush : list event -> outcome unit;
  proc_readline : list event -> outcome string;  (* the empty string at end of stream *)
  json_loads : string -> outcome JSON;
  json_dumps : JSON -> string
}.

(** The client object ([self]) and the log; [process] is [None] until the
    server is started. *)
Record state : Type := {
  server_command : string;
  process : option unit;
  request_id : Z;
  log : list event
}.

Definition M : Type -> Type := Py.M state.

(** Make a call to the outside: log it, then answer as the world does. *)
Definition call {A} (ev : event) (answer : list event -> outcome A) : M A :=
  fun s => (answer (log s),
            {| server_command := server_command s; process := process s;
               request_id := request_id s; log := log s ++ [ev] |}).

Definition get_process : M (option unit) := fun s => (Ok (process s), s).

Definition set_process (p : option unit) : M unit :=
  fun s => (Ok tt,
            {| server_command := server_command s; process := p;
               request_id := request_id s; log := log s |}).

Definition get_request_id : M Z := fun s => (Ok (request_id s), s).

Definition set_request_id (n : Z) : M unit :=
  fun s => (Ok tt,
            {| server_command := server_command s; process := process s;
               request_id := n; log := log s |}).

Definition get_server_command : M string := fun s => (Ok (server_command s), s).

(** [MCPClient.__init__]. *)
Definition MCPClient_init (command : string) : state :=
  {| server_command := command; process := None; request_id := 1; log := [] |}.

Section WithWorld.

Variable w : World.

Definition print (line : string) : M unit := call (Print line) (fun _ => Ok tt).

(** [start_server]; the half second of sleep is not modelled. *)
Definition start_server : M bool :=
  try_except
    (command <- get_server_command ;;
     call (Popen command) (fun _ => popen w command) ;;;
     set_process (Some tt) ;;;
     print "✅ MCP Server started successfully!" ;;;
     ret true)
    (fun e => Some (print ("❌ Failed to start server: " ++ exn_str e) ;;;
                    ret false)).

(** The request object [send_request] builds. *)
Definition make_request (id : Z) (method : string) (params : JSON) : JSON :=
  JDict ([("jsonrpc", JStr "2.0"); ("id", JInt id); ("method", JStr method)]
         ++ (if truthy params then [("params", params)] else [])).

(** [send_request(method, params)]; [params] is [None] when left out. *)
Definition send_request (method : string) (params : JSON) : M JSON :=
  p <- get_process ;;
  match p with
  | None => raise (Exn RuntimeError "Server not started")
  | Some _ =>
      id <- get_request_id ;;
      let request := make_request id method params in
      set_request_id (id + 1) ;;;
      let request_json := json_dumps w request ++ nl in
      call (Write request_json) (fun l => proc_write w l request_json) ;;;
      call Flush (proc_flush w) ;;;
      response_line <- call Readline (proc_readline w) ;;
      if String.eqb response_line "" then
        raise (Exn RuntimeError "No response from server")
      else lift (json_loads w (strip response_line))
  end.

(** A session: [send_request] is only called by [initialize], [list_tools]
    and [call_tool], each inside [try: ... except Exception], so the session
    goes on with the next call whatever the previous one did.  The outcomes
    are collected. *)
Fixpoint session (calls : list (string * JSON)) : M (list (outcome JSON)) :=
  match calls with
  | [] => ret []
  | (method, params) :: rest =>
      r <- (fun s => let (r, s') := send_request method params s in (Ok r, s')) ;;
      rs <- session rest ;;
      ret (r :: rs)
  end.

End WithWorld.

(** The data written to the child process, oldest first. *)
Fixpoint written (l : list event) : list string :=
  match l with
  | [] => []
  | Write data :: rest => data :: written rest
  | _ :: rest => written rest
  end.

(** The requests with the ids [first], [first + 1], ... for [calls]. *)
Fixpoint numbered (w : World) (first : Z) (calls : list (string * JSON)) : list string :=
  match calls with
  | [] => []
  | (method, params) :: rest =>
      (json_dumps w (make_request first method params) ++ nl)
        :: numbered w (first + 1) rest
  end.

End Client.

(** ** A small world to run the code in *)

Module Demo.

Import Server.

(** The directory [.] holds the file [a.txt] (10 bytes) and the directory
    [sub]; next to them, [big.bin] is one byte over the limit, [edge.txt]
    is exactly at the limit and [blob] holds two bytes that are no UTF-8. *)
Inductive node : Type :=
| Dir (children : list string)
| File (size : Z) (bytes : list Byte.byte).

Definition edge_bytes : list Byte.byte := repeat Byte.x61 (Z.to_nat MAX_SIZE).
Definition big_bytes : list Byte.byte := repeat Byte.x61 (Z.to_nat (MAX_SIZE + 1)).

Definition lookup (p : PurePath) : option node :=
  match p with
  | Path s =>
      if String.eqb s "." then Some (Dir ["sub"; "a.txt"])
      else if String.eqb s "big.bin" then Some (File (MAX_SIZE + 1) big_bytes)
      else if String.eqb s "edge.txt" then Some (File MAX_SIZE edge_bytes)
      else if String.eqb s "blob" then Some (File 2 [Byte.xff; Byte.xfe])
      else None
  | Div (Path s) n =>
      if String.eqb s "." then
        if String.eqb n "a.txt" then
          Some (File 10 (list_byte_of_string "0123456789"))
        else if String.eqb n "sub" then Some (Dir [])
        else None
      else None
  | Div _ _ => None
  end.

Definition no_such_file (p : PurePath) : exn :=
  Exn OSError ("[Errno 2] No such file or directory: '" ++ name p ++ "'").

(** Text without escapes, which is all the values below need. *)
Fixpoint dumps (v : JSON) : string :=
  match v with
  | JNull => "null"
  | JBool true => "true"
  | JBool false => "false"
  | JInt n => str_of_int n
  | JFloat _ => "NaN"
  | JStr s => "'" ++ s ++ "'"
  | JList l =>
      "[" ++ String.concat ", "
               ((fix each (l : list JSON) : list string :=
                   match l with
                   | [] => []
                   | x :: rest => dumps x :: each rest
                   end) l) ++ "]"
  | JDict d =>
      "{" ++ String.concat ", "
               ((fix each (d : list (string * JSON)) : list string :=
                   match d with
                   | [] => []
                   | (k, x) :: rest => ("'" ++ k ++ "': " ++ dumps x) :: each rest
                   end) d) ++ "}"
  end.

(** The lines the examples feed to the parser. *)
Definition loads (line : string) : outcome JSON :=
  if String.eqb line "{}" then Ok (JDict [])
  else if String.eqb line "7" then Ok (JInt 7)
  else Raise (Exn JSONDecodeError "Expecting value: line 1 column 1 (char 0)").

(** ASCII without carriage returns decodes to itself. *)
Definition decode (bytes : list Byte.byte) : option string :=
  if forallb (fun b => (Strings.Byte.to_N b <? 128)%N
                       && negb (Strings.Byte.to_N b =? 13)%N) bytes
  then Some (string_of_list_byte bytes)
  else None.

Definition world : World := {|
  fs_exists p := Ok (match lookup p with Some _ => true | None => false end);
  fs_is_dir p := Ok (match lookup p with Some (Dir _) => true | _ => false end);
  fs_is_file p := Ok (match lookup p with Some (File _ _) => true | _ => false end);
  fs_st_size p :=
    match lookup p with
    | Some (File size _) => Ok size
    | Some (Dir _) => Ok 4096
    | None => Raise (no_such_file p)
    end;
  fs_iterdir p :=
    match lookup p with
    | Some (Dir children) => Ok children
    | Some (File _ _) => Raise (Exn OSError ("[Errno 20] Not a directory: '" ++ name p ++ "'"))
    | None => Raise (no_such_file p)
    end;
  fs_open p :=
    match lookup p with
    | Some (File _ _) => Ok tt
    | Some (Dir _) => Raise (Exn OSError ("[Errno 21] Is a directory: '" ++ name p ++ "'"))
    | None => Raise (no_such_file p)
    end;
  fs_read p :=
    match lookup p with
    | Some (File _ bytes) => Ok bytes
    | _ => Raise (no_such_file p)
    end;
  utf8_decode := decode;
  decode_error_str _ := "'utf-8' codec can't decode byte 0xff in position 0: invalid start byte";
  path_type_error_str v :=
    "expected str, bytes or os.PathLike object, not " ++ type_name v;
  py_repr := dumps;
  json_loads := loads;
  json_dumps := dumps
|}.

(** A child process that takes every request and answers [{}]. *)
Definition client_world : Client.World := {|
  Client.popen _ := Ok tt;
  Client.proc_write _ _ := Ok tt;
  Client.proc_flush _ := Ok tt;
  Client.proc_readline _ := Ok ("{}" ++ nl);
  Client.json_loads := loads;
  Client.json_dumps := dumps
|}.

(** A [tools/call] request. *)
Definition tools_call (id : Z) (tool : string) (arguments : list (string * JSON))
  : list (string * JSON) :=
  [("jsonrpc", JStr "2.0"); ("id", JInt id); ("method", JStr "tools/call");
   ("params", JDict [("name", JStr tool); ("arguments", JDict arguments)])].

End Demo.

(** ** What can be observed of the server *)

Module ServerObs.

Import Server.

(** [m] always ends, changes nothing of the server object, and the calls
    it makes, taken together, satisfy [good]. *)
Definition keeps {A} (good : list event -> Prop) (m : M A) : Prop :=
  forall s, exists r evs, runs m s r evs /\ good evs.

(** Every line printed on standard output is flushed at once. *)
Fixpoint flushed (l : list event) : bool :=
  match l with
  | [] => true
  | Stdout _ :: rest =>
      match rest with
      | StdoutFlush :: _ => flushed rest
      | _ => false
      end
  | _ :: rest => flushed rest
  end.

(** One of the three methods [handle_request] knows. *)
Definition recognized (method : JSON) : bool :=
  eq_str method "initialize" || eq_str method "tools/list"
  || eq_str method "tools/call".

(** A response to [request_id] with the code its method allows: a result,
    -32601 for a method that is not recognized, -32603 for a [tools/call]. *)
Definition graded (method request_id resp : JSON) : Prop :=
  (exists result, resp = response_result request_id result) \/
  (exists message,
      resp = response_error request_id (-32601) message /\
      recognized method = false) \/
  (exists message,
      resp = response_error request_id (-32603) message /\
      eq_str method "tools/call" = true).

Definition is_dict (v : JSON) : bool :=
  match v with JDict _ => true | _ => false end.

(** The exception [v.get(...)] raises when [v] is no dict. *)
Definition no_get (v : JSON) : exn :=
  Exn AttributeError ("'" ++ type_name v ++ "' object has no attribute 'get'").

(** The lines [_list_files] makes for a file and for a directory. *)
Definition file_line (name : string) (size : Z) : string :=
  "📄 " ++ name ++ " (" ++ str_of_int size ++ " bytes)".

Definition dir_line (name : string) : string := "📁 " ++ name ++ "/".

(** What the file system answers about the child [n] of [path_obj], when
    it answers all the questions the loop asks about it: a file with its
    size, a directory, or something else. *)
Inductive child : Type :=
| ChildFile (size : Z)
| ChildDir
| ChildOther.

Definition child_is (w : World) (path_obj : PurePath) (n : string) (c : child) : Prop :=
  match c with
  | ChildFile size =>
      fs_is_file w (Div path_obj n) = Ok true /\
      fs_st_size w (Div path_obj n) = Ok size
  | ChildDir =>
      fs_is_file w (Div path_obj n) = Ok false /\
      fs_is_dir w (Div path_obj n) = Ok true
  | ChildOther =>
      fs_is_file w (Div path_obj n) = Ok false /\
      fs_is_dir w (Div path_obj n) = Ok false
  end.

(** The line of a child in the listing, if it has one. *)
Definition child_line (n : string) (c : child) : list string :=
  match c with
  | ChildFile size => [file_line n size]
  | ChildDir => [dir_line n]
  | ChildOther => []
  end.

Fixpoint child_lines (names : list string) (children : list child) : list string :=
  match names, children with
  | n :: names', c :: children' => (child_line n c ++ child_lines names' children')%list
  | _, _ => []
  end.

(** The calls the loop of [_list_files] makes about the child [n]. *)
Definition child_events (path_obj : PurePath) (n : string) (c : child) : list event :=
  match c with
  | ChildFile _ => [FsIsFile (Div path_obj n); FsStat (Div path_obj n)]
  | _ => [FsIsFile (Div path_obj n); FsIsDir (Div path_obj n)]
  end.

Fixpoint children_events (path_obj : PurePath) (names : list string)
    (children : list child) : list event :=
  match names, children with
  | n :: names', c :: children' =>
      (child_events path_obj n c ++ children_events path_obj names' children')%list
  | _, _ => []
  end.

(** The text of a listing of [p] with the lines [lines]. *)
Definition listing (p : string) (lines : list string) : string :=
  match lines with
  | [] => "Directory '" ++ p ++ "' is empty"
  | _ => "Contents of '" ++ p ++ "':" ++ nl ++ String.concat nl lines
  end.

(** The request object [d] is a [tools/call] that names [tool]. *)
Definition names_tool (d : list (string * JSON)) (tool : string) : bool :=
  eq_str (dict_get d "method" JNull) "tools/call"
  && match dict_get d "params" (JDict []) with
     | JDict params => eq_str (dict_get params "name" JNull) tool
     | _ => false
     end.

Definition ascending (a b : string) : Prop := String.leb a b = true.

(** A call that neither opens nor reads a file. *)
Definition no_open (ev : event) : bool := negb (opens_file ev).

End ServerObs.

(** ** The client's wrappers: [initialize], [list_tools], [call_tool] *)

Module ClientApi.

Import Client.

(** What the wrappers use of Python and do not define: the text of a
    float, list or dict, and the exceptions of the operators. *)
Record Builtins : Type := {
  repr : JSON -> string;            (* str() of a float, list or dict *)
  not_iterable : JSON -> exn;       (* [x in v] on a value that has no members *)
  no_item : JSON -> JSON -> exn;    (* [v[k]] when [v] has no item [k] *)
  no_len : JSON -> exn              (* [len(v)] on a value that has no length *)
}.

(** The exception [v.get(...)] raises when [v] is no dict. *)
Definition no_get (v : JSON) : exn :=
  Exn AttributeError ("'" ++ type_name v ++ "' object has no attribute 'get'").

(** A byte that continues a character in UTF-8. *)
Definition continues (c : ascii) : bool :=
  ((128 <=? N_of_ascii c) && (N_of_ascii c <? 192))%N.

(** [len(s)] on a string: the number of its characters. *)
Fixpoint str_len (s : string) : Z :=
  match s with
  | EmptyString => 0
  | String c rest => (if continues c then 0 else 1) + str_len rest
  end.

(** The bytes that continue the character a string starts with. *)
Fixpoint continuation (s : string) : string :=
  match s with
  | EmptyString => EmptyString
  | String c rest => if continues c then String c (continuation rest) else EmptyString
  end.

Section WithBuiltins.

Variable b : Builtins.

(** [str(v)], as an f-string formats [v]. *)
Definition to_str (v : JSON) : string :=
  match v with
  | JNull => "None"
  | JBool true => "True"
  | JBool false => "False"
  | JInt n => str_of_int n
  | JStr s => s
  | _ => repr b v
  end.

(** [key in v]. *)
Definition py_in (key : string) (v : JSON) : outcome bool :=
  match v with
  | JDict d => Ok (dict_has d key)
  | JList l => Ok (existsb (fun x => eq_str x key) l)
  | JStr s => Ok (contains key s)
  | _ => Raise (not_iterable b v)
  end.

(** [v[key]] for a string [key]: only a dict can have the item. *)
Definition getitem (v : JSON) (key : string) : outcome JSON :=
  match v with
  | JDict d =>
      if dict_has d key then Ok (dict_get d key JNull)
      else Raise (no_item b v (JStr key))
  | _ => Raise (no_item b v (JStr key))
  end.

(** [v[0]]: the first item of a list, the first character of a string;
    the keys of a dict that was parsed from JSON are strings. *)
Definition getitem0 (v : JSON) : outcome JSON :=
  match v with
  | JList (x :: _) => Ok x
  | JStr (String c rest) => Ok (JStr (String c (continuation rest)))
  | _ => Raise (no_item b v (JInt 0))
  end.

(** [len(v)]. *)
Definition py_len (v : JSON) : outcome Z :=
  match v with
  | JList l => Ok (Z.of_nat (length l))
  | JDict d => Ok (Z.of_nat (length d))
  | JStr s => Ok (str_len s)
  | _ => Raise (no_len b v)
  end.

(** [v.get(key, default)]. *)
Definition py_get (v : JSON) (key : string) (default : JSON) : outcome JSON :=
  match v with
  | JDict d => Ok (dict_get d key default)
  | _ => Raise (no_get v)
  end.

Variable w : World.

Definition initialize : M bool :=
  try_except
    (response <- send_request w "initialize"
                   (JDict [("protocolVersion", JStr "2024-11-05");
                           ("capabilities", JDict []);
                           ("clientInfo",
                            JDict [("name", JStr "simple-mcp-client");
                                   ("version", JStr "1.0.0")])]) ;;
     has_result <- lift (py_in "result" response) ;;
     if has_result then
       print "🤝 MCP connection initialized!" ;;;
       ret true
     else
       print ("❌ Initialization failed: " ++ to_str response) ;;;
       ret false)
    (fun e => Some (print ("❌ Initialization error: " ++ exn_str e) ;;;
                    ret false)).

Definition list_tools : M JSON :=
  try_except
    (response <- send_request w "tools/list" JNull ;;
     has_result <- lift (py_in "result" response) ;;
     if has_result then
       result <- lift (getitem response "result") ;;
       lift (getitem result "tools")
     else
       print ("❌ Failed to list tools: " ++ to_str response) ;;;
       ret (JList []))
    (fun e => Some (print ("❌ Error listing tools: " ++ exn_str e) ;;;
                    ret (JList []))).

Definition call_tool (tool_name : string) (arguments : JSON) : M JSON :=
  try_except
    (response <- send_request w "tools/call"
                   (JDict [("name", JStr tool_name); ("arguments", arguments)]) ;;
     has_result <- lift (py_in "result" response) ;;
     if has_result then
       result <- lift (getitem response "result") ;;
       content <- lift (getitem result "content") ;;
       some <- (if truthy content then
                  n <- lift (py_len content) ;;
                  ret (n >? 0)
                else ret false) ;;
       if some then
         first <- lift (getitem0 content) ;;
         lift (getitem first "text")
       else ret (JStr "No content returned")
     else
       error <- lift (py_get response "error" (JDict [])) ;;
       message <- lift (py_get error "message" (JStr "Unknown error")) ;;
       ret (JStr ("Error: " ++ to_str message)))
    (fun e => Some (ret (JStr ("Error calling tool: " ++ exn_str e)))).

End WithBuiltins.

(** The request line [send_request] writes for the id [id]. *)
Definition request_line (w : World) (id : Z) (method : string) (params : JSON) : string :=
  json_dumps w (make_request id method params) ++ nl.

(** The child process takes the request [data] written in the state [s]
    and answers with [line]. *)
Definition answers_with (w : World) (s : state) (data line : string) : Prop :=
  proc_write w (log s) data = Ok tt /\
  proc_flush w (log s ++ [Write data]) = Ok tt /\
  proc_readline w (log s ++ [Write data; Flush]) = Ok line.

(** [s] after a request has been sent and answered. *)
Definition after_request (s : state) (data : string) : state :=
  {| server_command := server_command s; process := process s;
     request_id := request_id s + 1;
     log := log s ++ [Write data; Flush; Readline] |}.

(** [s] after something was printed. *)
Definition printed (s : state) (line : string) : state :=
  {| server_command := server_command s; process := process s;
     request_id := request_id s; log := log s ++ [Print line] |}.

(** Between [s] and [s'] nothing was sent and the client object did not
    change: at most, lines were printed. *)
Definition same_session (s s' : state) : Prop :=
  server_command s' = server_command s /\
  process s' = process s /\
  request_id s' = request_id s /\
  written (log s') = written (log s).

(** [m] ends, with a value or an exception, within the session. *)
Definition settles {A} (m : M A) : Prop :=
  forall s, exists r s', m s = (r, s') /\ same_session s s'.

(** [m] returns a value within the session. *)
Definition lands {A} (m : M A) : Prop :=
  forall s, exists a s', m s = (Ok a, s') /\ same_session s s'.

(** One request was sent between [s] and [s']: the one of [method] and
    [params] with the id of [s]. *)
Definition sent_one (w : World) (method : string) (params : JSON) (s s' : state) : Prop :=
  process s' = process s /\
  request_id s' = request_id s + 1 /\
  written (log s')
  = (written (log s) ++ [request_line w (request_id s) method params])%list.

(** The parameters of the three requests. *)
Definition initialize_params : JSON :=
  JDict [("protocolVersion", JStr "2024-11-05");
         ("capabilities", JDict []);
         ("clientInfo",
          JDict [("name", JStr "simple-mcp-client");
                 ("version", JStr "1.0.0")])].

Definition call_params (tool_name : string) (arguments : JSON) : JSON :=
  JDict [("name", JStr tool_name); ("arguments", arguments)].

End ClientApi.

(** ** A small world to run the wrappers in *)

Module DemoApi.

Import Client ClientApi.

(** [exn_class] has no KeyError and no IndexError; the failed lookups of
    a dict and of a list are filed under RuntimeError here, which no
    handler of the client tells apart from the others. *)
Definition builtins : Builtins := {|
  repr := Demo.dumps;
  not_iterable v :=
    Exn TypeError ("argument of type '" ++ type_name v ++ "' is not iterable");
  no_item v k :=
    match v with
    | JDict _ => Exn RuntimeError (Demo.dumps k)
    | JList _ => Exn RuntimeError "list index out of range"
    | JStr _ => Exn TypeError "string indices must be integers"
    | _ => Exn TypeError ("'" ++ type_name v ++ "' object is not subscriptable")
    end;
  no_len v := Exn TypeError ("object of type '" ++ type_name v ++ "' has no len()")
|}.

(** A child process that takes every request and answers with the text
    of [resp]; the parser knows that text. *)
Definition child (resp : JSON) : World := {|
  popen _ := Ok tt;
  proc_write _ _ := Ok tt;
  proc_flush _ := Ok tt;
  proc_readline _ := Ok (Demo.dumps resp ++ nl);
  json_loads line :=
    if String.eqb line (Demo.dumps resp) then Ok resp
    else Raise (Exn JSONDecodeError "Expecting value: line 1 column 1 (char 0)");
  json_dumps := Demo.dumps
|}.

(** The client after [start_server]. *)
Definition started : state := {|
  server_command := "python3 file_directory_mcp_server.py";
  process := Some tt;
  request_id := 1;
  log := [Popen "python3 file_directory_mcp_server.py";
          Print "✅ MCP Server started successfully!"]
|}.

(** The client before [start_server]. *)
Definition fresh : state := MCPClient_init "python3 file_directory_mcp_server.py".

(** What the server of [Demo.world] answers to the first requests. *)
Definition listing_text : string :=
  "Contents of '.':" ++ nl ++ "📁 sub/" ++ nl ++ "📄 a.txt (10 bytes)".

Definition listing_response : JSON :=
  Server.response_result (JInt 1) (Server.tool_result listing_text).

Definition initialize_response : JSON :=
  Server.response_result (JInt 1)
    (JDict [("protocolVersion", JStr "2024-11-05");
            ("capabilities", JDict [("tools", JDict [])]);
            ("serverInfo",
             JDict [("name", JStr "file-manager-server");
                    ("version", JStr "1.0.0")])]).

Definition tools_response : JSON :=
  Server.response_result (JInt 1)
    (JDict [("tools", JList (map snd Server.init_tools))]).

Definition error_response : JSON :=
  Server.response_error (JInt 1) (-32603) "Internal error: Unknown tool: write_file".

(** A child process that takes every request and closes its output
    without a line. *)
Definition silent : World := {|
  popen _ := Ok tt;
  proc_write _ _ := Ok tt;
  proc_flush _ := Ok tt;
  proc_readline _ := Ok "";
  json_loads := Demo.loads;
  json_dumps := Demo.dumps
|}.

(** A machine where the server command cannot be run. *)
Definition no_python : World := {|
  popen _ := Raise (Exn OSError "[Errno 2] No such file or directory: 'python3'");
  proc_write _ _ := Ok tt;
  proc_flush _ := Ok tt;
  proc_readline _ := Ok "";
  json_loads := Demo.loads;
  json_dumps := Demo.dumps
|}.

End DemoApi.

(** ** The client's interactive session: one turn of the loop *)

Module ClientUi.

Import Client ClientApi.

(** The characters of a string, each with the bytes that continue it. *)
Fixpoint chars (s : string) : list string :=
  match s with
  | EmptyString => []
  | String c rest =>
      match chars rest with
      | String c' frag :: more =>
          if continues c' then String c (String c' frag) :: more
          else String c EmptyString :: String c' frag :: more
      | tail => String c EmptyString :: tail
      end
  end.

Section WithWorld.

Variable b : Builtins.
Variable w : World.

(** The items [for x in v] goes through: the items of a list, the keys
    of a dict, the characters of a string. *)
Definition py_iter (v : JSON) : outcome (list JSON) :=
  match v with
  | JList l => Ok l
  | JDict d => Ok (map (fun kv => JStr (fst kv)) d)
  | JStr s => Ok (map JStr (chars s))
  | _ => Raise (not_iterable b v)
  end.

(** The loop that prints the tools in the [list] command. *)
Fixpoint print_tools (tools : list JSON) : M unit :=
  match tools with
  | [] => ret tt
  | tool :: rest =>
      name <- lift (getitem b tool "name") ;;
      description <- lift (getitem b tool "description") ;;
      print ("  • " ++ to_str b name ++ ": " ++ to_str b description) ;;;
      print_tools rest
  end.

(** The body of the [while True] loop of [interactive_session], from the
    line that [input] returned on; it answers whether the loop is left.
    The prompt and the reading are [input]'s, and the interrupt that the
    second handler is for comes from the keyboard: both are outside. *)
Definition interactive_turn (raw : string) : M bool :=
  try_except
    (let command := strip raw in
     if String.eqb command "" then ret false
     else if String.eqb command "quit" then ret true
     else if String.eqb command "list" then
       tools <- list_tools b w ;;
       print (nl ++ "📋 Available Tools:") ;;;
       items <- lift (py_iter tools) ;;
       print_tools items ;;;
       ret false
     else if String.prefix "ls " command then
       let path := (let rest := strip (drop 3 command) in
                    if String.eqb rest "" then "." else rest) in
       result <- call_tool b w "list_files" (JDict [("path", JStr path)]) ;;
       print (nl ++ to_str b result) ;;;
       ret false
     else if String.prefix "cat " command then
       let filepath := strip (drop 4 command) in
       if String.eqb filepath "" then
         print "❌ Please provide a file path" ;;;
         ret false
       else
         result <- call_tool b w "read_file" (JDict [("path", JStr filepath)]) ;;
         print (nl ++ to_str b result) ;;;
         ret false
     else if String.eqb command "ls" then
       result <- call_tool b w "list_files" (JDict [("path", JStr ".")]) ;;
       print (nl ++ to_str b result) ;;;
       ret false
     else
       print "❌ Unknown command. Type 'quit' to exit." ;;;
       ret false)
    (fun e => Some (print ("❌ Error: " ++ exn_str e) ;;; ret false)).

End WithWorld.

(** [m] ends, and every call it makes to the outside satisfies [good]. *)
Definition emits {A} (good : event -> Prop) (m : M A) : Prop :=
  forall s, exists r s' evs,
    m s = (r, s') /\ log s' = (log s ++ evs)%list /\ Forall good evs.

(** The request a command stands for, if any. *)
Definition command_request (command : string) : option (string * JSON) :=
  if String.eqb command "" then None
  else if String.eqb command "quit" then None
  else if String.eqb command "list" then Some ("tools/list", JNull)
  else if String.prefix "ls " command then
    Some ("tools/call",
          call_params "list_files" (JDict [("path", JStr (strip (drop 3 command)))]))
  else if String.prefix "cat " command then
    Some ("tools/call",
          call_params "read_file" (JDict [("path", JStr (strip (drop 4 command)))]))
  else if String.eqb command "ls" then
    Some ("tools/call", call_params "list_files" (JDict [("path", JStr ".")]))
  else None.

(** What a turn does to the session: it sends the request of its
    command and nothing else, or nothing when the command has none. *)
Definition turn_effect (w : World) (command : string) (s s' : state) : Prop :=
  match command_request command with
  | Some (method, params) => sent_one w method params s s'
  | None => same_session s s'
  end.

(** [m] ends within the session, with [False] or with an exception. *)
Definition falls (m : M bool) : Prop :=
  forall s, exists r s',
    m s = (r, s') /\ same_session s s' /\
    (r = Ok false \/ exists e, r = Raise e).

(** Anything but printing the line that asks for a file path. *)
Definition not_the_prompt (ev : event) : Prop :=
  ev <> Print "❌ Please provide a file path".

End ClientUi.

(** ** Facts about the server *)

Module ServerSpec.

Import Server.

Lemma extend_nil (s : state) : extend s [] = s.
Proof. destruct s; unfold extend; simpl; now rewrite app_nil_r. Qed.

Lemma extend_extend (s : state) (a b : list event) :
  extend (extend s a) b = extend s (a ++ b).
Proof. unfold extend; simpl; now rewrite app_assoc. Qed.

Section Runs.

Context {A B : Type}.

Lemma runs_ret (a : A) s : runs (ret a) s (Ok a) [].
Proof. unfold runs, ret; now rewrite extend_nil. Qed.

Lemma runs_raise (e : exn) s : runs (@raise state A e) s (Raise e) [].
Proof. unfold runs, raise; now rewrite extend_nil. Qed.

Lemma runs_lift (o : outcome A) s : runs (lift o) s o [].
Proof. unfold runs, lift; now rewrite extend_nil. Qed.

Lemma runs_call (ev : event) (o : outcome A) s : runs (call ev o) s o [ev].
Proof. reflexivity. Qed.

Lemma runs_bind (m : M A) (k : A -> M B) s a r e1 e2 :
  runs m s (Ok a) e1 -> runs (k a) (extend s e1) r e2 ->
  runs (bind m k) s r (e1 ++ e2).
Proof.
  unfold runs, bind; intros -> ->; now rewrite extend_extend.
Qed.

Lemma runs_bind_raise (m : M A) (k : A -> M B) s e e1 :
  runs m s (Raise e) e1 -> runs (bind m k) s (Raise e) e1.
Proof. unfold runs, bind; now intros ->. Qed.

Lemma runs_try_ok (m : M A) h s a e1 :
  runs m s (Ok a) e1 -> runs (try_except m h) s (Ok a) e1.
Proof. unfold runs, try_except; now intros ->. Qed.

Lemma runs_try_caught (m : M A) h s e e1 k r e2 :
  runs m s (Raise e) e1 -> h e = Some k -> runs k (extend s e1) r e2 ->
  runs (try_except m h) s r (e1 ++ e2).
Proof.
  unfold runs, try_except; intros -> -> ->; now rewrite extend_extend.
Qed.

Lemma runs_try_passed (m : M A) h s e e1 :
  runs m s (Raise e) e1 -> h e = None ->
  runs (try_except m h) s (Raise e) e1.
Proof. unfold runs, try_except; now intros -> ->. Qed.

Variable allowed : event -> bool.

Lemma confined_ret (a : A) : confined allowed (ret a).
Proof. intros s; exists (Ok a), []; split; [apply runs_ret | reflexivity]. Qed.

Lemma confined_raise (e : exn) : confined allowed (@raise state A e).
Proof. intros s; exists (Raise e), []; split; [apply runs_raise | reflexivity]. Qed.

Lemma confined_lift (o : outcome A) : confined allowed (lift o).
Proof. intros s; exists o, []; split; [apply runs_lift | reflexivity]. Qed.

Lemma confined_call (ev : event) (o : outcome A) :
  allowed ev = true -> confined allowed (call ev o).
Proof.
  intros H s; exists o, [ev]; split; [apply runs_call | simpl; now rewrite H].
Qed.

Lemma confined_bind (m : M A) (k : A -> M B) :
  confined allowed m -> (forall a, confined allowed (k a)) ->
  confined allowed (bind m k).
Proof.
  intros Hm Hk s; destruct (Hm s) as (r & e1 & R1 & F1); destruct r as [a|e].
  - destruct (Hk a (extend s e1)) as (r2 & e2 & R2 & F2).
    exists r2, (e1 ++ e2)%list; split; [eapply runs_bind; eauto|].
    now rewrite forallb_app, F1, F2.
  - exists (Raise e), e1; split; [now apply runs_bind_raise | assumption].
Qed.

Lemma confined_try (m : M A) (h : exn -> option (M A)) :
  confined allowed m -> (forall e k, h e = Some k -> confined allowed k) ->
  confined allowed (try_except m h).
Proof.
  intros Hm Hh s; destruct (Hm s) as (r & e1 & R1 & F1); destruct r as [a|e].
  - exists (Ok a), e1; split; [now apply runs_try_ok | assumption].
  - destruct (h e) as [k|] eqn:E.
    + destruct (Hh e k E (extend s e1)) as (r2 & e2 & R2 & F2).
      exists r2, (e1 ++ e2)%list; split; [eapply runs_try_caught; eauto|].
      now rewrite forallb_app, F1, F2.
    + exists (Raise e), e1; split; [now apply runs_try_passed | assumption].
Qed.

End Runs.

Lemma confined_weaken {A} (P Q : event -> bool) (m : M A) :
  (forall ev, P ev = true -> Q ev = true) -> confined P m -> confined Q m.
Proof.
  intros PQ Hm s; destruct (Hm s) as (r & evs & R & F).
  exists r, evs; split; [assumption|].
  rewrite forallb_forall in *; auto.
Qed.

Section Posts.

Context {A B : Type}.

Lemma attempts_ret (a : A) (post : A -> Prop) : post a -> attempts (ret a) post.
Proof. intros H s; exists (Ok a), []; repeat split; [apply runs_ret | assumption]. Qed.

Lemma attempts_raise (e : exn) (post : A -> Prop) : attempts (raise e) post.
Proof. intros s; exists (Raise e), []; repeat split; apply runs_raise. Qed.

Lemma attempts_bind (m : M A) (k : A -> M B) (post : B -> Prop) :
  confined fs_event m -> (forall a, attempts (k a) post) ->
  attempts (bind m k) post.
Proof.
  intros Hm Hk s; destruct (Hm s) as (r & e1 & R1 & F1); destruct r as [a|e].
  - destruct (Hk a (extend s e1)) as (r2 & e2 & R2 & F2 & P2).
    exists r2, (e1 ++ e2)%list; repeat split; [eapply runs_bind; eauto| |assumption].
    now rewrite forallb_app, F1, F2.
  - exists (Raise e), e1; repeat split; [now apply runs_bind_raise | assumption].
Qed.

Lemma returns_ret (a : A) (post : A -> Prop) : post a -> returns (ret a) post.
Proof. intros H s; exists a, []; repeat split; [apply runs_ret | assumption]. Qed.

(** A [try] whose handlers catch everything and return always returns. *)
Lemma returns_try (m : M A) (h : exn -> option (M A)) (post : A -> Prop) :
  attempts m post -> (forall e, exists k, h e = Some k /\ returns k post) ->
  returns (try_except m h) post.
Proof.
  intros Hm Hh s; destruct (Hm s) as (r & e1 & R1 & F1 & P1); destruct r as [a|e].
  - exists a, e1; repeat split; [now apply runs_try_ok | assumption | assumption].
  - destruct (Hh e) as (k & Hk & Tk).
    destruct (Tk (extend s e1)) as (a & e2 & R2 & F2 & P2).
    exists a, (e1 ++ e2)%list; repeat split; [eapply runs_try_caught; eauto| |assumption].
    now rewrite forallb_app, F1, F2.
Qed.

Lemma returns_confined (m : M A) (post : A -> Prop) :
  returns m post -> confined fs_event m.
Proof. intros T s; destruct (T s) as (a & evs & R & F & _); now exists (Ok a), evs. Qed.

Lemma confined_attempts (m : M A) :
  confined fs_event m -> attempts m (fun _ => True).
Proof. intros T s; destruct (T s) as (r & evs & R & F); exists r, evs; now destruct r. Qed.

End Posts.

Create HintDb confined.

#[local] Hint Resolve confined_ret confined_raise confined_lift confined_bind : confined.

Section WithWorld.

Variable w : World.

Section Confined.

Variable allowed : event -> bool.
Hypothesis fs_allowed : forall ev, fs_event ev = true -> allowed ev = true.

Lemma confined_fs {A} ev (o : outcome A) :
  fs_event ev = true -> confined allowed (call ev o).
Proof. intros H; apply confined_call; auto. Qed.

Lemma confined_mkPath v : confined allowed (mkPath w v).
Proof. destruct v; simpl; auto with confined. Qed.

Lemma confined_py_get v key default : confined allowed (py_get v key default).
Proof. destruct v; simpl; auto with confined. Qed.

Lemma confined_get_tools : confined allowed get_tools.
Proof.
  intros s; exists (Ok (self_tools s)), []; split; [|reflexivity].
  unfold runs, get_tools; now rewrite extend_nil.
Qed.

Lemma confined_read p : confined allowed (read w p).
Proof.
  apply confined_bind; [now apply confined_fs|].
  intros bytes; destruct (utf8_decode w bytes); auto with confined.
Qed.

Lemma confined_list_loop path_obj items :
  forall files, confined allowed (list_loop w path_obj items files).
Proof.
  induction items as [|n rest IH]; intros files; simpl; [apply confined_ret|].
  apply confined_bind; [now apply confined_fs|].
  intros [|].
  - apply confined_bind; [now apply confined_fs | intros size; apply IH].
  - apply confined_bind; [now apply confined_fs | intros [|]; apply IH].
Qed.

End Confined.

#[local] Hint Resolve confined_mkPath confined_py_get confined_read
  confined_list_loop confined_get_tools : confined.

(** [_list_files] returns a string, whatever the path and the file system. *)
Lemma returns__list_files path : returns (_list_files w path) (fun _ => True).
Proof.
  apply returns_try.
  - apply confined_attempts.
    apply confined_bind; [auto with confined|]; intros path_obj.
    apply confined_bind; [now apply confined_call|]; intros [|]; simpl; [|auto with confined].
    apply confined_bind; [now apply confined_call|]; intros [|]; simpl; [|auto with confined].
    apply confined_bind; [now apply confined_call|]; intros items.
    apply confined_bind; [auto with confined|]; intros [|f files]; auto with confined.
  - intros e; eexists; split; [reflexivity | now apply returns_ret].
Qed.

(** [_read_file] returns a string, whatever the path and the file system. *)
Lemma returns__read_file path : returns (_read_file w path) (fun _ => True).
Proof.
  apply returns_try.
  - apply confined_attempts.
    apply confined_bind; [auto with confined|]; intros path_obj.
    apply confined_bind; [now apply confined_call|]; intros [|]; simpl; [|auto with confined].
    apply confined_bind; [now apply confined_call|]; intros [|]; simpl; [|auto with confined].
    apply confined_bind; [now apply confined_call|]; intros size.
    destruct (size >? MAX_SIZE); [auto with confined|].
    apply confined_bind; [now apply confined_call|]; intros _.
    apply confined_bind; auto with confined.
  - intros e; destruct (is_class UnicodeDecodeError e);
      eexists; (split; [reflexivity | now apply returns_ret]).
Qed.

(** A request object is answered, with one of the two shapes. *)
Lemma handle_request_answers d :
  returns (handle_request w (JDict d)) (answers (dict_get d "id" JNull)).
Proof.
  unfold handle_request; simpl py_get.
  set (method := dict_get d "method" JNull).
  set (params := dict_get d "params" (JDict [])).
  set (request_id := dict_get d "id" JNull).
  intros s; unfold runs; cbn [bind ret]; revert s.
  apply returns_try.
  - destruct (eq_str method "initialize").
    { apply attempts_ret; left; eauto. }
    destruct (eq_str method "tools/list").
    { apply attempts_bind; [auto with confined|]; intros tools.
      apply attempts_ret; left; eauto. }
    destruct (eq_str method "tools/call").
    2:{ apply attempts_ret; right; eauto. }
    apply attempts_bind; [auto with confined|]; intros tool_name.
    apply attempts_bind; [auto with confined|]; intros arguments.
    apply attempts_bind.
    2:{ intros result; apply attempts_ret; left; eauto. }
    destruct (eq_str tool_name "list_files").
    { apply confined_bind; [auto with confined|]; intros path.
      eapply returns_confined, returns__list_files. }
    destruct (eq_str tool_name "read_file").
    { apply confined_bind; [auto with confined|]; intros path.
      eapply returns_confined, returns__read_file. }
    auto with confined.
  - intros e; eexists; split; [reflexivity|].
    apply returns_ret; right; eauto.
Qed.

Lemma confined_handle_request allowed request :
  (forall ev, fs_event ev = true -> allowed ev = true) ->
  confined allowed (handle_request w request).
Proof.
  intros Hfs; apply (confined_weaken fs_event); [assumption|].
  destruct request;
    try solve [intros st; eexists (Raise _), []; split;
               [apply runs_bind_raise, runs_raise | reflexivity]].
  eapply returns_confined, handle_request_answers.
Qed.

Lemma fs_not_io evs : forallb fs_event evs = true -> filter io_event evs = [].
Proof.
  induction evs as [|ev evs IH]; simpl; [reflexivity|].
  intros H; apply andb_true_iff in H as [H1 H2].
  destruct ev; simpl in *; try discriminate; auto.
Qed.

Lemma strip_nonblank line : strip line <> "" -> String.eqb (strip line) "" = false.
Proof. intros H; now apply String.eqb_neq. Qed.

(** The turn of a blank line: nothing happens. *)
Lemma run_line_blank line s :
  strip line = "" -> runs (run_line w line) s (Ok tt) [].
Proof.
  intros H; unfold run_line; rewrite H; simpl; apply runs_ret.
Qed.

(** The turn of a line that holds a JSON object: the response of
    [handle_request] is printed and flushed. *)
Lemma run_line_object line d s :
  strip line <> "" -> json_loads w (strip line) = Ok (JDict d) ->
  exists resp evs,
    runs (handle_request w (JDict d)) s (Ok resp) evs /\
    forallb fs_event evs = true /\
    answers (dict_get d "id" JNull) resp /\
    runs (run_line w line) s (Ok tt)
      (evs ++ [Stdout (json_dumps w resp); StdoutFlush]).
Proof.
  intros Hne Hload.
  destruct (handle_request_answers d s) as (resp & evs & R & F & P).
  exists resp, evs; repeat split; try assumption.
  unfold run_line; rewrite (strip_nonblank _ Hne), Hload.
  apply runs_try_ok.
  change (runs ?m s (Ok tt) ?l) with (runs m s (Ok tt) ([] ++ l)%list).
  eapply runs_bind; [apply runs_lift|]; rewrite extend_nil.
  eapply runs_bind; [exact R|].
  change [Stdout (json_dumps w resp); StdoutFlush]
    with ([Stdout (json_dumps w resp)] ++ [StdoutFlush])%list.
  eapply runs_bind; apply runs_call.
Qed.

(** The turn of a line that is no JSON: a parse error is printed and
    flushed. *)
Lemma run_line_parse_error line e s :
  strip line <> "" -> json_loads w (strip line) = Raise e ->
  is_class JSONDecodeError e = true ->
  runs (run_line w line) s (Ok tt)
    [Stdout (json_dumps w (response_error JNull (-32700)
                             ("Parse error: " ++ exn_str e)));
     StdoutFlush].
Proof.
  intros Hne Hload Hcls.
  unfold run_line; rewrite (strip_nonblank _ Hne), Hload.
  change (runs ?m s (Ok tt) [?a; ?b])
    with (runs m s (Ok tt) ([] ++ ([a] ++ [b]))%list).
  eapply runs_try_caught.
  - apply runs_bind_raise, runs_lift.
  - rewrite Hcls; reflexivity.
  - rewrite extend_nil; eapply runs_bind; apply runs_call.
Qed.

Lemma run_line_servable line s :
  servable w line ->
  exists evs,
    runs (run_line w line) s (Ok tt) evs /\
    turn w line (Stdin line :: filter io_event evs).
Proof.
  intros [Hblank | Hline].
  - exists []; split; [now apply run_line_blank | now left].
  - destruct (string_dec (strip line) "") as [Hblank | Hne].
    { exists []; split; [now apply run_line_blank | now left]. }
    destruct Hline as [(d & Hload) | (e & Hload & Hcls)].
    + destruct (run_line_object line d s Hne Hload) as (resp & evs & _ & F & _ & R).
      eexists; split; [exact R|]; right; split; [assumption|].
      exists resp; rewrite filter_app, (fs_not_io _ F); reflexivity.
    + eexists; split; [exact (run_line_parse_error line e s Hne Hload Hcls)|].
      right; split; [assumption|]; eexists; reflexivity.
Qed.

(** A parse failure of another class than [JSONDecodeError] is not
    caught by the loop: nothing is printed and the exception goes on. *)
Lemma run_line_other_failure line e s :
  strip line <> "" -> json_loads w (strip line) = Raise e ->
  is_class JSONDecodeError e = false ->
  runs (run_line w line) s (Raise e) [].
Proof.
  intros Hne Hload Hcls.
  unfold run_line; rewrite (strip_nonblank _ Hne), Hload.
  apply runs_try_passed; [apply runs_bind_raise, runs_lift | now rewrite Hcls].
Qed.

(** The loop over [pre ++ rest] is the loop over [pre], then, unless an
    exception ended it, the loop over [rest]. *)
Lemma serve_app pre rest :
  forall s,
    serve w (pre ++ rest) s
    = match serve w pre s with
      | (Ok _, s') => serve w rest s'
      | (Raise e, s') => (Raise e, s')
      end.
Proof.
  induction pre as [|line pre IH]; intros s; [reflexivity|].
  simpl app; simpl serve; unfold bind, call.
  destruct (run_line w line _) as [[u|e] s1]; [apply IH | reflexivity].
Qed.

(** [run] is the loop, started after the two lines on standard error. *)
Lemma run_serve stdin s :
  run w stdin s
  = serve w stdin
      (extend (extend s [Stderr "🚀 MCP File Manager Server started!"])
         [Stderr "💡 Send JSON-RPC requests via stdin"]).
Proof. reflexivity. Qed.

Lemma confined_run_line line : confined (fun _ => true) (run_line w line).
Proof.
  unfold run_line; destruct (String.eqb (strip line) ""); [apply confined_ret|].
  apply confined_try.
  - apply confined_bind; [apply confined_lift|]; intros request.
    apply confined_bind; [now apply confined_handle_request|]; intros response.
    apply confined_bind; intros; now apply confined_call.
  - intros e k; destruct (is_class JSONDecodeError e); [|discriminate].
    intros [= <-]; apply confined_bind; intros; now apply confined_call.
Qed.

Lemma confined_serve stdin : confined (fun _ => true) (serve w stdin).
Proof.
  induction stdin as [|line rest IH]; simpl; [apply confined_ret|].
  apply confined_bind; [now apply confined_call|]; intros _.
  apply confined_bind; [apply confined_run_line | intros _; exact IH].
Qed.

Lemma confined_run stdin : confined (fun _ => true) (run w stdin).
Proof.
  unfold run.
  apply confined_bind; [now apply confined_call|]; intros _.
  apply confined_bind; [now apply confined_call|]; intros _.
  apply confined_serve.
Qed.

(** Nothing writes to [self.tools]. *)
Lemma confined_keeps_tools {A} allowed (m : M A) s r s' :
  confined allowed m -> m s = (r, s') -> self_tools s' = self_tools s.
Proof.
  intros Hm E; destruct (Hm s) as (r0 & evs & R & _).
  unfold runs in R; rewrite E in R; now injection R as _ ->.
Qed.

Lemma eq_str_true v lit : eq_str v lit = true -> v = JStr lit.
Proof.
  destruct v; simpl; try discriminate; intros H.
  now apply String.eqb_eq in H as ->.
Qed.

Lemma dict_get_absent d key default :
  dict_has d key = false -> dict_get d key default = default.
Proof.
  induction d as [|[k v] rest IH]; simpl; [reflexivity|].
  destruct (String.eqb k key); simpl; [discriminate | exact IH].
Qed.

Lemma contains_app sub pre s :
  contains sub s = true -> contains sub (pre ++ s) = true.
Proof.
  intros H; induction pre as [|c pre IH]; simpl; [assumption|].
  rewrite IH; apply orb_true_r.
Qed.

Lemma bind_ret {A B} (a : A) (k : A -> M B) : bind (ret a) k = k a.
Proof. reflexivity. Qed.

(** A [tools/call] of [list_files] answers with what [_list_files] returns
    for the path of the arguments, or for [.] when they have none. *)
Lemma call_list_files d args s text evs :
  calls_tool d "list_files" args ->
  runs (_list_files w (dict_get args "path" (JStr "."))) s (Ok text) evs ->
  runs (handle_request w (JDict d)) s
    (Ok (response_result (dict_get d "id" JNull) (tool_result text))) evs.
Proof.
  intros (Hm & params & Hp & Hn & Ha) R.
  apply eq_str_true in Hm; apply eq_str_true in Hn.
  unfold handle_request; simpl py_get; rewrite Hm, Hp, !bind_ret; simpl.
  rewrite Hn, Ha, !bind_ret; simpl; rewrite bind_ret.
  apply runs_try_ok.
  rewrite <- (app_nil_r evs).
  eapply runs_bind; [exact R | apply runs_ret].
Qed.

(** A [tools/call] of [read_file] answers with what [_read_file] returns
    for the path of the arguments, or for [None] when they have none. *)
Lemma call_read_file d args s text evs :
  calls_tool d "read_file" args ->
  runs (_read_file w (dict_get args "path" JNull)) s (Ok text) evs ->
  runs (handle_request w (JDict d)) s
    (Ok (response_result (dict_get d "id" JNull) (tool_result text))) evs.
Proof.
  intros (Hm & params & Hp & Hn & Ha) R.
  apply eq_str_true in Hm; apply eq_str_true in Hn.
  unfold handle_request; simpl py_get; rewrite Hm, Hp, !bind_ret; simpl.
  rewrite Hn, Ha, !bind_ret; simpl; rewrite bind_ret.
  apply runs_try_ok.
  rewrite <- (app_nil_r evs).
  eapply runs_bind; [exact R | apply runs_ret].
Qed.

Ltac run_tool :=
  unfold runs, _list_files, _read_file, read, mkPath, exists_, is_dir,
    is_file, st_size, iterdir, open;
  unfold try_except, bind, call, ret, raise, extend;
  simpl.

Lemma list_files_missing p s :
  fs_exists w (Path p) = Ok false ->
  runs (_list_files w (JStr p)) s
    (Ok ("Error: Path '" ++ p ++ "' does not exist")) [FsExists (Path p)].
Proof. intros H; run_tool; now rewrite H. Qed.

Lemma read_file_too_large p size s :
  fs_exists w (Path p) = Ok true -> fs_is_file w (Path p) = Ok true ->
  fs_st_size w (Path p) = Ok size -> MAX_SIZE < size ->
  runs (_read_file w (JStr p)) s
    (Ok ("Error: File '" ++ p ++ "' is too large (max 1MB)"))
    [FsExists (Path p); FsIsFile (Path p); FsStat (Path p)].
Proof.
  intros He Hf Hs Hlt; run_tool; rewrite He; simpl; rewrite Hf; simpl.
  rewrite Hs; simpl.
  replace (size >? MAX_SIZE) with true by (symmetry; apply Z.gtb_lt; lia).
  now rewrite <- !app_assoc.
Qed.

Lemma read_file_reads p size bytes s :
  fs_exists w (Path p) = Ok true -> fs_is_file w (Path p) = Ok true ->
  fs_st_size w (Path p) = Ok size -> size <= MAX_SIZE ->
  fs_open w (Path p) = Ok tt -> fs_read w (Path p) = Ok bytes ->
  runs (_read_file w (JStr p)) s
    (Ok (match utf8_decode w bytes with
         | Some content => "Contents of '" ++ p ++ "':" ++ nl ++ nl ++ content
         | None => "Error: Cannot read '" ++ p ++ "' - appears to be a binary file"
         end))
    [FsExists (Path p); FsIsFile (Path p); FsStat (Path p);
     FsOpen (Path p); FsRead (Path p)].
Proof.
  intros He Hf Hs Hle Ho Hr; run_tool; rewrite He; simpl; rewrite Hf; simpl.
  rewrite Hs; simpl.
  replace (size >? MAX_SIZE) with false by (symmetry; rewrite Z.gtb_ltb; apply Z.ltb_ge; lia).
  rewrite Ho, Hr; simpl.
  destruct (utf8_decode w bytes); simpl; now rewrite <- !app_assoc.
Qed.

Lemma read_file_no_path s :
  runs (_read_file w JNull) s
    (Ok ("Error reading file: " ++ path_type_error_str w JNull)) [].
Proof. run_tool; now rewrite app_nil_r; destruct s. Qed.

(** C1. For every request object, whatever its method, [handle_request]
    returns a response object that has exactly one of the keys [result]
    and [error]. *)
Theorem handle_request_result_xor_error (d : list (string * JSON)) (s : state) :
  exists resp s',
    handle_request w (JDict d) s = (Ok resp, s') /\
    xorb (has_key "result" resp) (has_key "error" resp) = true.
Proof.
  destruct (handle_request_answers d s) as (resp & evs & R & _ & P).
  exists resp, (extend s evs); split; [exact R|].
  destruct P as [(result & ->) | (code & message & ->)]; reflexivity.
Qed.

(** C2. The response to a request object carries the [id] of the request,
    or null when the request has none, for a result as for an error; this
    is the response the loop prints for a line that parses as that object;
    and the response the loop prints for a line that fails to parse is an
    error whose [id] is null. *)
Theorem response_echoes_id :
  (forall d s, exists resp s',
      handle_request w (JDict d) s = (Ok resp, s') /\
      field "id" resp = Some (dict_get d "id" JNull)) /\
  (forall line d s,
      strip line <> "" -> json_loads w (strip line) = Ok (JDict d) ->
      exists resp evs,
        runs (run_line w line) s (Ok tt)
          (evs ++ [Stdout (json_dumps w resp); StdoutFlush]) /\
        forallb fs_event evs = true /\
        field "id" resp = Some (dict_get d "id" JNull)) /\
  (forall line e s,
      strip line <> "" -> json_loads w (strip line) = Raise e ->
      is_class JSONDecodeError e = true ->
      exists resp,
        runs (run_line w line) s (Ok tt)
          [Stdout (json_dumps w resp); StdoutFlush] /\
        has_key "error" resp = true /\
        field "id" resp = Some JNull).
Proof.
  assert (Hid : forall id resp, answers id resp -> field "id" resp = Some id).
  { intros id resp [(result & ->) | (code & message & ->)]; reflexivity. }
  repeat split.
  - intros d s; destruct (handle_request_answers d s) as (resp & evs & R & _ & P).
    exists resp, (extend s evs); split; [exact R | now apply Hid].
  - intros line d s Hne Hload.
    destruct (run_line_object line d s Hne Hload) as (resp & evs & _ & F & P & R).
    exists resp, evs; repeat split; [exact R | exact F | now apply Hid].
  - intros line e s Hne Hload Hcls; eexists; split;
      [exact (run_line_parse_error line e s Hne Hload Hcls) | split; reflexivity].
Qed.

(** C3, as the loop is written. In any run, every line read from
    standard input that is not blank, and that is a JSON object or is
    refused by the parser with a [JSONDecodeError], is followed by exactly
    one response line on standard output and a flush, before the next line
    is read; a blank line is followed by nothing. The line [line] is read
    when the loop over the lines [pre] before it has returned; nothing is
    asked of the lines [post] after it. *)
Theorem run_answers_each_nonblank_line (pre : list string) (line : string)
    (post : list string) (s : state) (e0 : list event) :
  runs (run w pre) s (Ok tt) e0 ->
  servable w line ->
  exists e1 r e2,
    runs (run w (pre ++ line :: post)) s r (e0 ++ Stdin line :: e1 ++ e2) /\
    turn w line (Stdin line :: filter io_event e1) /\
    match post with
    | [] => e2 = [] /\ r = Ok tt
    | next :: _ => exists e2', e2 = Stdin next :: e2'
    end.
Proof.
  intros Hpre Hline.
  destruct (run_line_servable line (extend (extend s e0) [Stdin line]) Hline)
    as (e1 & R1 & T1).
  assert (Hpost : exists r e2,
             runs (serve w post) (extend (extend (extend s e0) [Stdin line]) e1) r e2 /\
             match post with
             | [] => e2 = [] /\ r = Ok tt
             | next :: _ => exists e2', e2 = Stdin next :: e2'
             end).
  { destruct post as [|next post'].
    - exists (Ok tt), []; split; [apply runs_ret | now split].
    - destruct (confined_bind _ (run_line w next) (fun _ => serve w post')
                  (confined_run_line next) (fun _ => confined_serve post')
                  (extend (extend (extend (extend s e0) [Stdin line]) e1) [Stdin next]))
        as (r & e2' & R2 & _).
      exists r, (Stdin next :: e2'); split; [|now exists e2'].
      simpl serve.
      exact (runs_bind _ _ _ _ _ [Stdin next] _ (runs_call _ _ _) R2). }
  destruct Hpost as (r & e2 & R2 & Hnext).
  exists e1, r, e2; split; [|split; [exact T1 | exact Hnext]].
  pose proof (runs_bind (run_line w line) (fun _ => serve w post) _ _ _ _ _ R1 R2)
    as R12.
  pose proof (runs_bind _ (fun _ => run_line w line ;;; serve w post) _ _ _
                [Stdin line] _ (runs_call (Stdin line) (Ok tt) (extend s e0)) R12) as R.
  unfold runs in *; rewrite run_serve in *.
  rewrite serve_app, Hpre; simpl serve.
  rewrite R, extend_extend; reflexivity.
Qed.

(** C4. After any run of the server over any input, a [tools/list]
    request returns the descriptors of the registry, named [list_files]
    and [read_file] in that order, and leaves the server as it was: the
    registry is the one [__init__] built. *)
Theorem tools_list_registry_stable (stdin : list string) r s'
    (d : list (string * JSON)) :
  run w stdin MCPServer_init = (r, s') ->
  eq_str (dict_get d "method" JNull) "tools/list" = true ->
  self_tools s' = init_tools /\
  handle_request w (JDict d) s'
    = (Ok (response_result (dict_get d "id" JNull)
             (JDict [("tools", JList (map snd init_tools))])), s') /\
  map (field "name") (map snd init_tools)
    = [Some (JStr "list_files"); Some (JStr "read_file")].
Proof.
  intros Hrun Hm.
  assert (Ht : self_tools s' = init_tools)
    by exact (confined_keeps_tools _ _ _ _ _ (confined_run stdin) Hrun).
  repeat split; [exact Ht|].
  apply eq_str_true in Hm.
  unfold handle_request; simpl py_get; rewrite Hm, !bind_ret; simpl.
  unfold try_except, bind, get_tools, ret; now rewrite Ht.
Qed.

(** C5. [_list_files] returns a string for every path and never raises;
    and a [tools/call] of [list_files] on a path that does not exist gets
    a result, not an error, whose text contains [does not exist]. *)
Theorem list_files_always_returns :
  (forall path s, exists text s', _list_files w path s = (Ok text, s')) /\
  (forall d args p s,
      calls_tool d "list_files" args ->
      dict_get args "path" (JStr ".") = JStr p ->
      fs_exists w (Path p) = Ok false ->
      exists text,
        runs (handle_request w (JDict d)) s
          (Ok (response_result (dict_get d "id" JNull) (tool_result text)))
          [FsExists (Path p)] /\
        contains "does not exist" text = true).
Proof.
  split.
  - intros path s; destruct (returns__list_files path s) as (text & evs & R & _).
    now exists text, (extend s evs).
  - intros d args p s Hcall Hpath Hex; eexists; split.
    + apply (call_list_files d args s _ _ Hcall).
      rewrite Hpath; now apply list_files_missing.
    + change ("Error: Path '" ++ p ++ "' does not exist")
        with (("Error: Path '" ++ p) ++ "' does not exist").
      now apply contains_app.
Qed.

(** C6. For a regular file, [_read_file] answers [too large] without
    opening or reading the file when the size in the file system metadata
    is over 1,048,576 bytes (so at 1,048,577 bytes), and opens the file and
    returns its content when the size is at most 1,048,576 bytes (so at
    exactly 1,048,576 bytes). *)
Theorem read_file_size_limit (p : string) (size : Z) (s : state) :
  fs_exists w (Path p) = Ok true ->
  fs_is_file w (Path p) = Ok true ->
  fs_st_size w (Path p) = Ok size ->
  MAX_SIZE = 1048576 /\
  (MAX_SIZE < size ->
   exists evs,
     runs (_read_file w (JStr p)) s
       (Ok ("Error: File '" ++ p ++ "' is too large (max 1MB)")) evs /\
     existsb opens_file evs = false) /\
  (size <= MAX_SIZE ->
   forall bytes content,
     fs_open w (Path p) = Ok tt ->
     fs_read w (Path p) = Ok bytes ->
     utf8_decode w bytes = Some content ->
     runs (_read_file w (JStr p)) s
       (Ok ("Contents of '" ++ p ++ "':" ++ nl ++ nl ++ content))
       [FsExists (Path p); FsIsFile (Path p); FsStat (Path p);
        FsOpen (Path p); FsRead (Path p)]).
Proof.
  intros He Hf Hs; repeat split.
  - intros Hlt; eexists; split;
      [exact (read_file_too_large p size s He Hf Hs Hlt) | reflexivity].
  - intros Hle bytes content Ho Hr Hd.
    generalize (read_file_reads p size bytes s He Hf Hs Hle Ho Hr).
    now rewrite Hd.
Qed.

(** C7. A [tools/call] of [read_file] on a regular file within the size
    limit whose bytes are not valid UTF-8 gets a result, not an error and
    not an exception, whose text is the [binary file] message. *)
Theorem read_file_binary (d args : list (string * JSON)) (p : string)
    (size : Z) (bytes : list Byte.byte) (s : state) :
  calls_tool d "read_file" args ->
  dict_get args "path" JNull = JStr p ->
  fs_exists w (Path p) = Ok true ->
  fs_is_file w (Path p) = Ok true ->
  fs_st_size w (Path p) = Ok size ->
  size <= MAX_SIZE ->
  fs_open w (Path p) = Ok tt ->
  fs_read w (Path p) = Ok bytes ->
  utf8_decode w bytes = None ->
  let text := "Error: Cannot read '" ++ p ++ "' - appears to be a binary file" in
  runs (handle_request w (JDict d)) s
    (Ok (response_result (dict_get d "id" JNull) (tool_result text)))
    [FsExists (Path p); FsIsFile (Path p); FsStat (Path p);
     FsOpen (Path p); FsRead (Path p)] /\
  contains "binary file" text = true.
Proof.
  intros Hcall Hpath He Hf Hs Hle Ho Hr Hd text; split.
  - apply (call_read_file d args s _ _ Hcall); rewrite Hpath.
    generalize (read_file_reads p size bytes s He Hf Hs Hle Ho Hr).
    now rewrite Hd.
  - change text with (("Error: Cannot read '" ++ p)
                        ++ "' - appears to be a binary file").
    now apply contains_app.
Qed.

(** C8. A request whose method is none of [initialize], [tools/list] and
    [tools/call] gets an error with code -32601; a [tools/call] that names
    a tool other than [list_files] and [read_file] gets an error with code
    -32603, made from the exception for the unknown tool. *)
Theorem unknown_method_and_unknown_tool (d : list (string * JSON)) (s : state) :
  let method := dict_get d "method" JNull in
  let request_id := dict_get d "id" JNull in
  (eq_str method "initialize" = false ->
   eq_str method "tools/list" = false ->
   eq_str method "tools/call" = false ->
   runs (handle_request w (JDict d)) s
     (Ok (response_error request_id (-32601)
            ("Method not found: " ++ py_str w method))) []) /\
  (forall params,
     eq_str method "tools/call" = true ->
     dict_get d "params" (JDict []) = JDict params ->
     let tool_name := dict_get params "name" JNull in
     eq_str tool_name "list_files" = false ->
     eq_str tool_name "read_file" = false ->
     runs (handle_request w (JDict d)) s
       (Ok (response_error request_id (-32603)
              ("Internal error: Unknown tool: " ++ py_str w tool_name))) []).
Proof.
  intros method request_id; split.
  - intros H1 H2 H3.
    unfold handle_request; simpl py_get; rewrite !bind_ret; fold method.
    rewrite H1, H2, H3; apply runs_try_ok, runs_ret.
  - intros params Hm Hp tool_name H1 H2; apply eq_str_true in Hm.
    unfold handle_request; simpl py_get; fold method; rewrite Hm, Hp, !bind_ret.
    simpl; rewrite !bind_ret; fold tool_name; rewrite H1, H2.
    change (@nil event) with ([] ++ @nil event)%list.
    eapply runs_try_caught;
      [apply runs_bind_raise, runs_raise | reflexivity | apply runs_ret].
Qed.

(** C10. A [tools/call] of [read_file] whose arguments have no [path]
    gets a result, not an error: the [None] path raises inside the tool,
    whose handler turns it into an [Error reading file] text; while for
    [list_files] a missing path is replaced by [.] before the tool runs. *)
Theorem read_file_without_path :
  (forall d args s,
      calls_tool d "read_file" args ->
      dict_has args "path" = false ->
      runs (handle_request w (JDict d)) s
        (Ok (response_result (dict_get d "id" JNull)
               (tool_result ("Error reading file: "
                             ++ path_type_error_str w JNull)))) []) /\
  (forall d args s text evs,
      calls_tool d "list_files" args ->
      dict_has args "path" = false ->
      runs (_list_files w (JStr ".")) s (Ok text) evs ->
      runs (handle_request w (JDict d)) s
        (Ok (response_result (dict_get d "id" JNull) (tool_result text))) evs).
Proof.
  split.
  - intros d args s Hcall Hno.
    apply (call_read_file d args s _ _ Hcall).
    rewrite (dict_get_absent _ _ _ Hno); apply read_file_no_path.
  - intros d args s text evs Hcall Hno R.
    apply (call_list_files d args s _ _ Hcall).
    now rewrite (dict_get_absent _ _ _ Hno).
Qed.

End WithWorld.

(** *** The theorems at work in the demo world *)

Lemma forallb_repeat {A} (f : A -> bool) (x : A) (n : nat) :
  f x = true -> forallb f (repeat x n) = true.
Proof. intros H; induction n as [|n IH]; simpl; [reflexivity | now rewrite H]. Qed.

Lemma decode_edge_bytes :
  Demo.decode Demo.edge_bytes = Some (string_of_list_byte Demo.edge_bytes).
Proof.
  unfold Demo.decode, Demo.edge_bytes.
  now rewrite forallb_repeat.
Qed.

Lemma calls_tool_demo id tool arguments :
  calls_tool (Demo.tools_call id tool arguments) tool arguments.
Proof.
  split; [reflexivity|].
  exists [("name", JStr tool); ("arguments", JDict arguments)].
  repeat split; simpl; apply String.eqb_refl.
Defined.

Lemma response_echoes_id_witness :
  (exists resp evs,
      runs (run_line Demo.world "{}") MCPServer_init (Ok tt)
        (evs ++ [Stdout (json_dumps Demo.world resp); StdoutFlush]) /\
      forallb fs_event evs = true /\
      field "id" resp = Some (dict_get [] "id" JNull)) /\
  (exists resp,
      runs (run_line Demo.world "nope") MCPServer_init (Ok tt)
        [Stdout (json_dumps Demo.world resp); StdoutFlush] /\
      has_key "error" resp = true /\
      field "id" resp = Some JNull).
Proof.
  split.
  - apply (proj1 (proj2 (response_echoes_id Demo.world)) "{}" [] MCPServer_init);
      [discriminate | reflexivity].
  - apply (proj2 (proj2 (response_echoes_id Demo.world)) "nope"
             (Exn JSONDecodeError "Expecting value: line 1 column 1 (char 0)")
             MCPServer_init);
      [discriminate | reflexivity | reflexivity].
Defined.

(** C3, as the claim states it, fails on a blank line: the line is read
    and nothing is printed for it. *)
Lemma blank_line_gets_no_response :
  filter io_event (log (snd (run Demo.world [nl] MCPServer_init))) = [Stdin nl].
Proof. reflexivity. Qed.

Lemma run_answers_each_nonblank_line_witness :
  exists e1 r e2,
    runs (run Demo.world ([nl; "{}"] ++ " nope" :: ["7"; "{}"])) MCPServer_init r
      ([Stderr "🚀 MCP File Manager Server started!";
        Stderr "💡 Send JSON-RPC requests via stdin";
        Stdin nl; Stdin "{}";
        Stdout (json_dumps Demo.world
                  (response_error JNull (-32601) "Method not found: None"));
        StdoutFlush]
         ++ Stdin " nope" :: e1 ++ e2) /\
    turn Demo.world " nope" (Stdin " nope" :: filter io_event e1) /\
    exists e2', e2 = Stdin "7" :: e2'.
Proof.
  apply (run_answers_each_nonblank_line Demo.world [nl; "{}"] " nope" ["7"; "{}"]
           MCPServer_init).
  - reflexivity.
  - right; right; eexists; split; reflexivity.
Defined.

(** A line that holds a JSON value other than an object is outside what
    the loop is written for: [handle_request] raises before its [try], and
    the exception ends the loop with nothing printed. *)
Example run_stops_on_non_object :
  exists e s',
    run Demo.world ["7"; "{}"] MCPServer_init = (Raise e, s') /\
    exn_cls e = AttributeError /\
    filter io_event (log s') = [Stdin "7"].
Proof. do 2 eexists; repeat split. Qed.

Lemma tools_list_registry_stable_witness :
  let s' := snd (run Demo.world ["{}"] MCPServer_init) in
  let d := [("jsonrpc", JStr "2.0"); ("id", JInt 2); ("method", JStr "tools/list")] in
  self_tools s' = init_tools /\
  handle_request Demo.world (JDict d) s'
    = (Ok (response_result (JInt 2)
             (JDict [("tools", JList (map snd init_tools))])), s') /\
  map (field "name") (map snd init_tools)
    = [Some (JStr "list_files"); Some (JStr "read_file")].
Proof.
  intros s' d.
  apply (tools_list_registry_stable Demo.world ["{}"]
           (fst (run Demo.world ["{}"] MCPServer_init)) s' d);
    [apply surjective_pairing | reflexivity].
Defined.

Lemma list_files_always_returns_witness :
  exists text,
    runs (handle_request Demo.world
            (JDict (Demo.tools_call 4 "list_files" [("path", JStr "nowhere")])))
      MCPServer_init
      (Ok (response_result (JInt 4) (tool_result text)))
      [FsExists (Path "nowhere")] /\
    contains "does not exist" text = true.
Proof.
  apply (proj2 (list_files_always_returns Demo.world)
           (Demo.tools_call 4 "list_files" [("path", JStr "nowhere")])
           [("path", JStr "nowhere")] "nowhere" MCPServer_init);
    [apply calls_tool_demo | reflexivity | reflexivity].
Defined.

Lemma read_file_size_limit_witness :
  (exists evs,
      runs (_read_file Demo.world (JStr "big.bin")) MCPServer_init
        (Ok "Error: File 'big.bin' is too large (max 1MB)") evs /\
      existsb opens_file evs = false) /\
  runs (_read_file Demo.world (JStr "edge.txt")) MCPServer_init
    (Ok ("Contents of '" ++ "edge.txt" ++ "':" ++ nl ++ nl
         ++ string_of_list_byte Demo.edge_bytes))
    [FsExists (Path "edge.txt"); FsIsFile (Path "edge.txt");
     FsStat (Path "edge.txt"); FsOpen (Path "edge.txt");
     FsRead (Path "edge.txt")].
Proof.
  split.
  - apply (proj1 (proj2 (read_file_size_limit Demo.world "big.bin" 1048577
                           MCPServer_init eq_refl eq_refl eq_refl))).
    reflexivity.
  - apply (proj2 (proj2 (read_file_size_limit Demo.world "edge.txt" 1048576
                           MCPServer_init eq_refl eq_refl eq_refl))
             (Z.le_refl _) Demo.edge_bytes _ eq_refl eq_refl decode_edge_bytes).
Defined.

Lemma read_file_binary_witness :
  runs (handle_request Demo.world
          (JDict (Demo.tools_call 5 "read_file" [("path", JStr "blob")])))
    MCPServer_init
    (Ok (response_result (JInt 5)
           (tool_result "Error: Cannot read 'blob' - appears to be a binary file")))
    [FsExists (Path "blob"); FsIsFile (Path "blob"); FsStat (Path "blob");
     FsOpen (Path "blob"); FsRead (Path "blob")] /\
  contains "binary file"
    "Error: Cannot read 'blob' - appears to be a binary file" = true.
Proof.
  apply (read_file_binary Demo.world
           (Demo.tools_call 5 "read_file" [("path", JStr "blob")])
           [("path", JStr "blob")] "blob" 2 [Byte.xff; Byte.xfe] MCPServer_init);
    try reflexivity; [apply calls_tool_demo | discriminate].
Defined.

Lemma unknown_method_and_unknown_tool_witness :
  runs (handle_request Demo.world
          (JDict [("jsonrpc", JStr "2.0"); ("id", JInt 6);
                  ("method", JStr "resources/list")]))
    MCPServer_init
    (Ok (response_error (JInt 6) (-32601) "Method not found: resources/list")) [] /\
  runs (handle_request Demo.world (JDict (Demo.tools_call 7 "write_file" [])))
    MCPServer_init
    (Ok (response_error (JInt 7) (-32603)
           "Internal error: Unknown tool: write_file")) [].
Proof.
  split.
  - apply (proj1 (unknown_method_and_unknown_tool Demo.world
                    [("jsonrpc", JStr "2.0"); ("id", JInt 6);
                     ("method", JStr "resources/list")] MCPServer_init));
      reflexivity.
  - apply (proj2 (unknown_method_and_unknown_tool Demo.world
                    (Demo.tools_call 7 "write_file" []) MCPServer_init)
             [("name", JStr "write_file"); ("arguments", JDict [])]);
      reflexivity.
Defined.

Lemma read_file_without_path_witness :
  runs (handle_request Demo.world (JDict (Demo.tools_call 8 "read_file" [])))
    MCPServer_init
    (Ok (response_result (JInt 8)
           (tool_result "Error reading file: expected str, bytes or os.PathLike object, not NoneType")))
    [] /\
  runs (handle_request Demo.world (JDict (Demo.tools_call 9 "list_files" [])))
    MCPServer_init
    (Ok (response_result (JInt 9)
           (tool_result ("Contents of '.':" ++ nl ++ "📁 sub/" ++ nl
                         ++ "📄 a.txt (10 bytes)"))))
    [FsExists (Path "."); FsIsDir (Path "."); FsIterdir (Path ".");
     FsIsFile (Div (Path ".") "sub"); FsIsDir (Div (Path ".") "sub");
     FsIsFile (Div (Path ".") "a.txt"); FsStat (Div (Path ".") "a.txt")].
Proof.
  split.
  - apply (proj1 (read_file_without_path Demo.world)
             (Demo.tools_call 8 "read_file" []) [] MCPServer_init);
      [apply calls_tool_demo | reflexivity].
  - apply (proj2 (read_file_without_path Demo.world)
             (Demo.tools_call 9 "list_files" []) [] MCPServer_init);
      [apply calls_tool_demo | reflexivity | reflexivity].
Defined.

End ServerSpec.

(** ** Facts about the client *)

Module ClientSpec.

Import Client.

Lemma written_app (a b : list event) : written (a ++ b) = (written a ++ written b)%list.
Proof.
  induction a as [|ev a IH]; simpl; [reflexivity|].
  destruct ev; simpl; now rewrite IH.
Qed.

Section WithWorld.

Variable w : World.

(** One [send_request] on a started client: whatever the child process
    does, the request written carries the current id and the counter
    moves on by one. *)
Lemma send_request_step method params s :
  process s <> None ->
  exists r s',
    send_request w method params s = (r, s') /\
    process s' = process s /\
    request_id s' = request_id s + 1 /\
    written (log s')
    = (written (log s)
         ++ [(json_dumps w (make_request (request_id s) method params) ++ nl)%string])%list.
Proof.
  intros Hp; unfold send_request, bind, get_process.
  destruct (process s) as [p|] eqn:E; [clear Hp | now destruct Hp].
  unfold get_request_id, set_request_id, call; simpl.
  destruct (proc_write w (log s) _) as [[]|e1]; simpl.
  2:{ do 2 eexists; repeat split; simpl; [assumption|].
      now rewrite written_app. }
  destruct (proc_flush w _) as [[]|e2]; simpl.
  2:{ do 2 eexists; repeat split; simpl; [assumption|].
      now rewrite !written_app, app_nil_r. }
  destruct (proc_readline w _) as [response_line|e3]; simpl.
  2:{ do 2 eexists; repeat split; simpl; [assumption|].
      now rewrite !written_app, !app_nil_r. }
  destruct (String.eqb response_line ""); unfold raise, lift;
    do 2 eexists; repeat split; simpl; try assumption;
    now rewrite !written_app, !app_nil_r.
Qed.

Lemma session_numbered calls :
  forall s, process s <> None ->
  exists rs s',
    session w calls s = (Ok rs, s') /\
    process s' = process s /\
    request_id s' = request_id s + Z.of_nat (length calls) /\
    written (log s') = (written (log s) ++ numbered w (request_id s) calls)%list.
Proof.
  induction calls as [|[method params] rest IH]; intros s Hp.
  - exists [], s; simpl; repeat split; [lia | now rewrite app_nil_r].
  - destruct (send_request_step method params s Hp) as (r & s1 & E1 & P1 & I1 & W1).
    assert (Hp1 : process s1 <> None) by now rewrite P1.
    destruct (IH s1 Hp1) as (rs & s2 & E2 & P2 & I2 & W2).
    exists (r :: rs), s2; repeat split.
    + simpl session; unfold bind, ret; now rewrite E1, E2.
    + now rewrite P2.
    + rewrite I2, I1; simpl length; lia.
    + rewrite W2, W1, I1, <- app_assoc; reflexivity.
Qed.

Lemma numbered_length first calls : length (numbered w first calls) = length calls.
Proof.
  revert first; induction calls as [|[m p] rest IH]; intros first; simpl;
    [reflexivity | now rewrite IH].
Qed.

Lemma numbered_nth calls :
  forall first k method params,
    nth_error calls k = Some (method, params) ->
    nth_error (numbered w first calls) k
    = Some (json_dumps w (make_request (first + Z.of_nat k) method params) ++ nl).
Proof.
  induction calls as [|[m p] rest IH]; intros first [|k] method params H;
    simpl in H; try discriminate.
  - injection H as -> ->; simpl; now rewrite Z.add_0_r.
  - cbn [numbered nth_error]; rewrite (IH (first + 1) k method params H).
    now replace (first + 1 + Z.of_nat k) with (first + Z.of_nat (S k)) by lia.
Qed.

(** C9. In a session (the server started, then any calls of
    [send_request]), the call number k, counted from 0, writes a request
    whose id is k + 1: the ids are 1, 2, 3, ... in the order of the calls,
    and none is used twice. *)
Theorem request_ids_count_from_one (command : string)
    (calls : list (string * JSON)) :
  popen w command = Ok tt ->
  exists rs s',
    (start_server w ;;; session w calls) (MCPClient_init command) = (Ok rs, s') /\
    request_id s' = 1 + Z.of_nat (length calls) /\
    length (written (log s')) = length calls /\
    forall k method params,
      nth_error calls k = Some (method, params) ->
      nth_error (written (log s')) k
      = Some (json_dumps w (make_request (1 + Z.of_nat k) method params) ++ nl) /\
      field "id" (make_request (1 + Z.of_nat k) method params)
      = Some (JInt (1 + Z.of_nat k)).
Proof.
  intros Hpopen.
  set (s1 := {| server_command := command; process := Some tt; request_id := 1;
                log := [Popen command; Print "✅ MCP Server started successfully!"] |}).
  assert (Hstart : start_server w (MCPClient_init command) = (Ok true, s1)).
  { unfold start_server, try_except, bind, get_server_command, call, set_process,
      print, call, ret; simpl; now rewrite Hpopen. }
  destruct (session_numbered calls s1) as (rs & s' & E & _ & I & W); [discriminate|].
  exists rs, s'; unfold bind at 1; rewrite Hstart.
  split; [exact E|]; split; [exact I|]; split.
  - rewrite W; simpl; apply numbered_length.
  - intros k method params H; split.
    + rewrite W; simpl; now apply numbered_nth.
    + reflexivity.
Qed.

End WithWorld.

Lemma request_ids_count_from_one_witness :
  exists rs s',
    (start_server Demo.client_world ;;;
     session Demo.client_world
       [("initialize", JDict [("protocolVersion", JStr "2024-11-05")]);
        ("tools/list", JNull)])
      (MCPClient_init "python3 file_directory_mcp_server.py") = (Ok rs, s') /\
    request_id s' = 1 + Z.of_nat 2 /\
    length (written (log s')) = 2%nat /\
    forall k method params,
      nth_error [("initialize", JDict [("protocolVersion", JStr "2024-11-05")]);
                 ("tools/list", JNull)] k = Some (method, params) ->
      nth_error (written (log s')) k
      = Some (json_dumps Demo.client_world
                (make_request (1 + Z.of_nat k) method params) ++ nl) /\
      field "id" (make_request (1 + Z.of_nat k) method params)
      = Some (JInt (1 + Z.of_nat k)).
Proof.
  apply (request_ids_count_from_one Demo.client_world
           "python3 file_directory_mcp_server.py"
           [("initialize", JDict [("protocolVersion", JStr "2024-11-05")]);
            ("tools/list", JNull)]).
  reflexivity.
Defined.

End ClientSpec.

(** ** More facts about the server *)

Module ServerExtra.

Import Server ServerObs ServerSpec.

#[local] Hint Resolve confined_ret confined_raise confined_lift confined_bind
  confined_mkPath confined_py_get confined_read confined_list_loop
  confined_get_tools : confined.

Lemma returns_try_ok {A} (m : M A) h (post : A -> Prop) :
  returns m post -> returns (try_except m h) post.
Proof.
  intros Hm s; destruct (Hm s) as (a & evs & R & F & P).
  exists a, evs; repeat split; [now apply runs_try_ok | assumption | assumption].
Qed.

Lemma runs_inj {A} (m : M A) s r r' evs evs' :
  runs m s r evs -> runs m s r' evs' -> r = r' /\ evs = evs'.
Proof.
  unfold runs, extend; intros H1 H2; rewrite H1 in H2.
  injection H2 as -> H; split; [reflexivity | now apply app_inv_head in H].
Qed.

Section WithWorld.

Variable w : World.

(** X1. [_read_file] returns a string for every path and every file
    system: whatever is raised on the way is turned into text. *)
Theorem read_file_always_returns (path : JSON) (s : state) :
  exists text s', _read_file w path s = (Ok text, s').
Proof.
  destruct (returns__read_file w path s) as (text & evs & R & _).
  now exists text, (extend s evs).
Qed.

(** X2. The response to a request object is a result, or an error with
    code -32601 and then the method is none of the three, or an error with
    code -32603 and then the method is [tools/call]: [initialize] and
    [tools/list] never fail, and no other code is used. *)
Theorem handle_request_graded (d : list (string * JSON)) (s : state) :
  exists resp s',
    handle_request w (JDict d) s = (Ok resp, s') /\
    graded (dict_get d "method" JNull) (dict_get d "id" JNull) resp.
Proof.
  cut (returns (handle_request w (JDict d))
         (graded (dict_get d "method" JNull) (dict_get d "id" JNull))).
  { intros H; destruct (H s) as (resp & evs & R & _ & P).
    now exists resp, (extend s evs). }
  unfold handle_request; simpl py_get; rewrite !bind_ret.
  set (method := dict_get d "method" JNull).
  set (params := dict_get d "params" (JDict [])).
  set (request_id := dict_get d "id" JNull).
  unfold graded, recognized.
  destruct (eq_str method "initialize") eqn:E1.
  { apply returns_try_ok, returns_ret; left; eauto. }
  destruct (eq_str method "tools/list") eqn:E2.
  { apply returns_try_ok; intros s0.
    exists (response_result request_id (JDict [("tools", JList (map snd (self_tools s0)))])), [].
    repeat split; [|left; eauto].
    unfold runs, bind, get_tools, ret; now rewrite extend_nil. }
  destruct (eq_str method "tools/call") eqn:E3.
  2:{ apply returns_try_ok, returns_ret; right; left; eauto. }
  apply returns_try.
  - apply attempts_bind; [auto with confined|]; intros tool_name.
    apply attempts_bind; [auto with confined|]; intros arguments.
    apply attempts_bind.
    2:{ intros result; apply attempts_ret; left; eauto. }
    destruct (eq_str tool_name "list_files").
    { apply confined_bind; [auto with confined|]; intros path.
      eapply returns_confined, returns__list_files. }
    destruct (eq_str tool_name "read_file").
    { apply confined_bind; [auto with confined|]; intros path.
      eapply returns_confined, returns__read_file. }
    auto with confined.
  - intros e; eexists; split; [reflexivity|].
    apply returns_ret; right; right; eauto.
Qed.

(** X3. A request object whose method is not [tools/call] is answered
    without any call to the outside: no file system access, nothing
    printed, the log is as it was. *)
Theorem only_tools_call_touches_the_world (d : list (string * JSON)) (s : state) :
  eq_str (dict_get d "method" JNull) "tools/call" = false ->
  exists resp, handle_request w (JDict d) s = (Ok resp, s).
Proof.
  intros E3.
  unfold handle_request; simpl py_get; rewrite !bind_ret, E3.
  destruct (eq_str _ "initialize"); [eexists; reflexivity|].
  destruct (eq_str _ "tools/list"); eexists; reflexivity.
Qed.

(** X4. A request that is a JSON value other than an object is not
    answered: [handle_request] raises AttributeError before its [try], and
    in the loop the exception is not a parse error, so it ends the loop
    with nothing printed and the lines that follow never read. *)
Theorem non_object_request_ends_the_loop (line : string) (v : JSON)
    (rest : list string) (s : state) :
  strip line <> "" ->
  json_loads w (strip line) = Ok v ->
  is_dict v = false ->
  handle_request w v s = (Raise (no_get v), s) /\
  runs (serve w (line :: rest)) s (Raise (no_get v)) [Stdin line].
Proof.
  intros Hne Hload Hv.
  assert (H : forall s0, handle_request w v s0 = (Raise (no_get v), s0)).
  { intros s0; destruct v; try discriminate; reflexivity. }
  split; [apply H|].
  simpl serve.
  rewrite <- (app_nil_r [Stdin line]).
  eapply runs_bind; [apply runs_call|].
  apply runs_bind_raise.
  unfold run_line; rewrite (strip_nonblank _ Hne), Hload.
  apply runs_try_passed; [|reflexivity].
  change (lift (Ok v)) with (@ret state _ v); rewrite bind_ret.
  apply runs_bind_raise.
  unfold runs; now rewrite H, extend_nil.
Qed.

(** X5. A [tools/call] whose [params] is not an object, or that names
    [list_files] or [read_file] with [arguments] that is not an object, is
    answered by an error with code -32603 carrying the AttributeError of
    the failed [.get], and touches no file. *)
Theorem tools_call_with_bad_params (d : list (string * JSON)) (s : state) :
  eq_str (dict_get d "method" JNull) "tools/call" = true ->
  let request_id := dict_get d "id" JNull in
  let params := dict_get d "params" (JDict []) in
  (is_dict params = false ->
   handle_request w (JDict d) s
   = (Ok (response_error request_id (-32603)
            ("Internal error: " ++ exn_str (no_get params))), s)) /\
  (forall ps arguments,
     params = JDict ps ->
     eq_str (dict_get ps "name" JNull) "list_files" = true \/
     eq_str (dict_get ps "name" JNull) "read_file" = true ->
     dict_get ps "arguments" (JDict []) = arguments ->
     is_dict arguments = false ->
     handle_request w (JDict d) s
     = (Ok (response_error request_id (-32603)
              ("Internal error: " ++ exn_str (no_get arguments))), s)).
Proof.
  intros Hm request_id params; apply eq_str_true in Hm.
  split.
  - intros Hp.
    unfold handle_request; simpl py_get; rewrite !bind_ret, Hm; simpl.
    fold params; destruct params; try discriminate; reflexivity.
  - intros ps arguments Hp Hn Ha Harg.
    unfold handle_request; simpl py_get; rewrite !bind_ret, Hm; simpl.
    fold params; rewrite Hp; simpl py_get; rewrite !bind_ret, Ha.
    destruct Hn as [Hn | Hn]; apply eq_str_true in Hn; rewrite Hn; simpl;
      destruct arguments; try discriminate; reflexivity.
Qed.

(** X6. A [tools/call] of [list_files] or of [read_file] with an object
    for [arguments] always gets a result holding one text item, whatever
    the path and whatever the file system does: a failure of the tool is
    text in a result, never an error response. *)
Theorem tool_failures_are_results (d args : list (string * JSON))
    (tool : string) (s : state) :
  calls_tool d tool args ->
  tool = "list_files" \/ tool = "read_file" ->
  exists text s',
    handle_request w (JDict d) s
    = (Ok (response_result (dict_get d "id" JNull) (tool_result text)), s').
Proof.
  intros Hcall [-> | ->].
  - destruct (returns__list_files w (dict_get args "path" (JStr ".")) s)
      as (text & evs & R & _).
    exists text, (extend s evs); exact (call_list_files w d args s text evs Hcall R).
  - destruct (returns__read_file w (dict_get args "path" JNull) s)
      as (text & evs & R & _).
    exists text, (extend s evs); exact (call_read_file w d args s text evs Hcall R).
Qed.

Ltac run_tool :=
  unfold runs, _list_files, _read_file, read, mkPath, exists_, is_dir,
    is_file, st_size, iterdir, open;
  unfold try_except, bind, call, ret, raise, extend;
  simpl.

Lemma bind_raise {A B} (e : exn) (k : A -> M B) : bind (raise e) k = raise e.
Proof. reflexivity. Qed.

(** X7. [_list_files] on a path that exists and is no directory answers
    [is not a directory] after asking only whether the path exists and is
    a directory: it does not try to list it. *)
Theorem list_files_not_a_directory (p : string) (s : state) :
  fs_exists w (Path p) = Ok true ->
  fs_is_dir w (Path p) = Ok false ->
  runs (_list_files w (JStr p)) s
    (Ok ("Error: Path '" ++ p ++ "' is not a directory"))
    [FsExists (Path p); FsIsDir (Path p)].
Proof.
  intros He Hd; run_tool; rewrite He; simpl; rewrite Hd; simpl.
  now rewrite <- !app_assoc.
Qed.

Lemma runs_call_bind {A B} (ev : event) (a : A) (k : A -> M B) s r evs :
  runs (k a) (extend s [ev]) r evs ->
  runs (bind (call ev (Ok a)) k) s r (ev :: evs).
Proof. intros H; exact (runs_bind _ _ _ _ _ [ev] _ (runs_call ev (Ok a) s) H). Qed.

Lemma list_loop_children path_obj names children :
  Forall2 (child_is w path_obj) names children ->
  forall files s,
    runs (list_loop w path_obj names files) s
      (Ok (files ++ child_lines names children)%list)
      (children_events path_obj names children).
Proof.
  induction 1 as [|n c names children Hc Hrest IH]; intros files s.
  - simpl; rewrite app_nil_r; apply runs_ret.
  - cbn [list_loop children_events child_lines].
    destruct c as [size| |]; destruct Hc as [Hf Hx];
      cbn [child_events child_line app]; unfold is_file; rewrite Hf;
      apply runs_call_bind.
    + unfold st_size; rewrite Hx; apply runs_call_bind.
      specialize (IH (files ++ [file_line n size])%list).
      rewrite <- app_assoc in IH; apply IH.
    + unfold is_dir; rewrite Hx; apply runs_call_bind.
      specialize (IH (files ++ [dir_line n])%list).
      rewrite <- app_assoc in IH; apply IH.
    + unfold is_dir; rewrite Hx; apply runs_call_bind.
      apply IH.
Qed.

Lemma ascending_trans a b c : ascending a b -> ascending b c -> ascending a c.
Proof.
  unfold ascending, String.leb; intros Hab Hbc.
  destruct (String.compare a b) eqn:Eab; try discriminate;
    destruct (String.compare b c) eqn:Ebc; try discriminate.
  - apply String.compare_eq_iff in Eab; subst; now rewrite Ebc.
  - apply String.compare_eq_iff in Eab; subst; now rewrite Ebc.
  - apply String.compare_eq_iff in Ebc; subst; now rewrite Eab.
  - apply OrderedTypeEx.String_as_OT.cmp_lt in Eab, Ebc.
    pose proof (OrderedTypeEx.String_as_OT.lt_trans _ _ _ Eab Ebc) as H.
    apply OrderedTypeEx.String_as_OT.cmp_lt in H.
    unfold OrderedTypeEx.String_as_OT.cmp in H; now rewrite H.
Qed.

Lemma insert_sorted_perm x l : Permutation (insert_sorted x l) (x :: l).
Proof.
  induction l as [|y rest IH]; simpl; [reflexivity|].
  destruct (String.leb x y); [reflexivity|].
  rewrite IH; apply perm_swap.
Qed.

Lemma sorted_perm l : Permutation (sorted l) l.
Proof.
  induction l as [|x rest IH]; simpl; [reflexivity|].
  rewrite insert_sorted_perm; now constructor.
Qed.

Lemma insert_sorted_ascending x l :
  StronglySorted ascending l -> StronglySorted ascending (insert_sorted x l).
Proof.
  induction 1 as [|y rest Hrest IH Hy]; simpl.
  - constructor; constructor.
  - destruct (String.leb x y) eqn:E.
    + constructor; [now constructor|].
      constructor; [exact E|].
      eapply Forall_impl; [|exact Hy].
      intros z Hz; now apply (ascending_trans x y z).
    + constructor; [exact IH|].
      apply (Permutation_Forall (Permutation_sym (insert_sorted_perm x rest))).
      constructor; [|exact Hy].
      destruct (String.leb_total x y) as [H | H]; [congruence | exact H].
Qed.

Lemma sorted_ascending l : StronglySorted ascending (sorted l).
Proof.
  induction l as [|x rest IH]; simpl; [constructor | now apply insert_sorted_ascending].
Qed.

Lemma sorted_cons_not_nil x l : sorted (x :: l) <> [].
Proof.
  intros H; pose proof (sorted_perm (x :: l)) as P; rewrite H in P.
  now apply Permutation_nil in P.
Qed.

(** X8. [_list_files] on a directory whose children all answer to the
    file system returns the listing of the directory: one line for each
    child that is a file, with its size, one for each child that is a
    directory, none for a child that is neither, the lines in ascending
    order; with no line at all the text says the directory is empty. *)
Theorem list_files_listing (p : string) (names : list string)
    (children : list child) (s : state) :
  fs_exists w (Path p) = Ok true ->
  fs_is_dir w (Path p) = Ok true ->
  fs_iterdir w (Path p) = Ok names ->
  Forall2 (child_is w (Path p)) names children ->
  let lines := sorted (child_lines names children) in
  runs (_list_files w (JStr p)) s (Ok (listing p lines))
    (FsExists (Path p) :: FsIsDir (Path p) :: FsIterdir (Path p)
       :: children_events (Path p) names children) /\
  Permutation lines (child_lines names children) /\
  StronglySorted ascending lines.
Proof.
  intros He Hd Hi Hc lines; repeat split;
    [|apply sorted_perm | apply sorted_ascending].
  unfold _list_files; apply runs_try_ok; simpl mkPath; rewrite bind_ret.
  unfold exists_; rewrite He; apply runs_call_bind; cbn [negb].
  unfold is_dir; rewrite Hd; apply runs_call_bind; cbn [negb].
  unfold iterdir; rewrite Hi; apply runs_call_bind.
  rewrite <- (app_nil_r (children_events _ _ _)).
  eapply runs_bind; [exact (list_loop_children _ _ _ Hc [] _)|].
  cbn [app]; subst lines.
  destruct (child_lines names children) as [|l0 ls] eqn:E.
  - apply runs_ret.
  - unfold listing; destruct (sorted (l0 :: ls)) eqn:Es;
      [now apply sorted_cons_not_nil in Es | apply runs_ret].
Qed.

Lemma log_nil {A} (l evs : list A) : l = (l ++ evs)%list -> evs = [].
Proof.
  intros H; rewrite <- (app_nil_r l) in H at 1.
  now apply app_inv_head in H.
Qed.

Ltac leaf Hopen :=
  intros R; injection R as _ R; rewrite <- ?app_assoc in R;
  first [apply log_nil in R | apply app_inv_head in R; symmetry in R];
  subst; simpl in Hopen; try discriminate Hopen.

(** X10. [_read_file] opens or reads a file only when the path is a
    string, the path exists, is a regular file, and its size in the
    metadata is at most 1,048,576 bytes. *)
Theorem read_file_opens_only_small_regular_files (path : JSON) (s : state)
    (r : outcome string) (evs : list event) :
  runs (_read_file w path) s r evs ->
  existsb opens_file evs = true ->
  exists p size,
    path = JStr p /\
    fs_exists w (Path p) = Ok true /\
    fs_is_file w (Path p) = Ok true /\
    fs_st_size w (Path p) = Ok size /\
    size <= MAX_SIZE.
Proof.
  intros R Hopen; revert R; destruct s as [tools0 log0].
  destruct path as [|b|n|bits|p|l|d];
    try (run_tool; rewrite ?app_nil_r; now leaf Hopen).
  run_tool.
  destruct (fs_exists w (Path p)) as [[|]|e0] eqn:He; simpl;
    try (destruct (exn_cls e0); now leaf Hopen);
    try now leaf Hopen.
  destruct (fs_is_file w (Path p)) as [[|]|e1] eqn:Hf; simpl;
    try (destruct (exn_cls e1); now leaf Hopen);
    try now leaf Hopen.
  destruct (fs_st_size w (Path p)) as [size|e2] eqn:Hs; simpl;
    try (destruct (exn_cls e2); now leaf Hopen).
  destruct (size >? MAX_SIZE) eqn:Hgt; simpl; [now leaf Hopen|].
  intros _; exists p, size; repeat split; try assumption.
  rewrite Z.gtb_ltb in Hgt; now apply Z.ltb_ge in Hgt.
Qed.

Lemma no_open_py_get v key default : confined no_open (py_get v key default).
Proof. destruct v; simpl; auto with confined. Qed.

Lemma no_open_list_loop path_obj items :
  forall files, confined no_open (list_loop w path_obj items files).
Proof.
  induction items as [|n rest IH]; intros files; simpl; [apply confined_ret|].
  apply confined_bind; [now apply confined_call|].
  intros [|].
  - apply confined_bind; [now apply confined_call | intros size; apply IH].
  - apply confined_bind; [now apply confined_call | intros [|]; apply IH].
Qed.

Lemma no_open__list_files path : confined no_open (_list_files w path).
Proof.
  apply confined_try.
  - apply confined_bind; [destruct path; simpl; auto with confined|]; intros path_obj.
    apply confined_bind; [now apply confined_call|]; intros [|]; simpl; [|auto with confined].
    apply confined_bind; [now apply confined_call|]; intros [|]; simpl; [|auto with confined].
    apply confined_bind; [now apply confined_call|]; intros items.
    apply confined_bind; [apply no_open_list_loop|]; intros [|f files]; auto with confined.
  - intros e k [= <-]; apply confined_ret.
Qed.

Lemma no_open_handle_request d :
  names_tool d "read_file" = false ->
  confined no_open (handle_request w (JDict d)).
Proof.
  unfold names_tool, handle_request; simpl py_get; rewrite !bind_ret.
  set (method := dict_get d "method" JNull).
  set (params := dict_get d "params" (JDict [])).
  intros H; apply confined_try; [|intros e k [= <-]; apply confined_ret].
  destruct (eq_str method "initialize"); [apply confined_ret|].
  destruct (eq_str method "tools/list").
  { apply confined_bind; [|intros; apply confined_ret].
    intros s; exists (Ok (self_tools s)), []; split; [|reflexivity].
    unfold runs, get_tools; now rewrite extend_nil. }
  destruct (eq_str method "tools/call"); [|apply confined_ret].
  simpl in H.
  destruct params as [|b|n|bits|str|l|ps];
    try (simpl py_get; rewrite bind_raise; apply confined_raise).
  simpl py_get; rewrite !bind_ret.
  destruct (eq_str (dict_get ps "name" JNull) "list_files").
  - apply confined_bind; [|intros; apply confined_ret].
    apply confined_bind; [apply no_open_py_get | intros; apply no_open__list_files].
  - rewrite H, bind_raise; apply confined_raise.
Qed.

(** X11. While it answers a request object, the server opens or reads a
    file only for a [tools/call] that names [read_file]: no other request,
    [list_files] included, looks into a file. *)
Theorem only_read_file_opens_files (d : list (string * JSON)) (s : state)
    (r : outcome JSON) (evs : list event) :
  runs (handle_request w (JDict d)) s r evs ->
  existsb opens_file evs = true ->
  names_tool d "read_file" = true.
Proof.
  intros R Hopen.
  destruct (names_tool d "read_file") eqn:E; [reflexivity|].
  destruct (no_open_handle_request d E s) as (r0 & evs0 & R0 & F).
  destruct (runs_inj _ _ _ _ _ _ R R0) as [_ ->].
  exfalso; clear R R0.
  induction evs0 as [|ev rest IH]; simpl in *; [discriminate|].
  apply andb_true_iff in F as [F1 F2]; unfold no_open in F1.
  destruct (opens_file ev); [discriminate | auto].
Qed.

Lemma flushed_app a b :
  flushed a = true -> flushed b = true -> flushed (a ++ b) = true.
Proof.
  intros Ha Hb; induction a as [|ev rest IH]; [exact Hb|].
  destruct ev; try (simpl in *; now apply IH).
  destruct rest as [|ev' rest']; [discriminate|].
  destruct ev'; try discriminate.
  exact (IH Ha).
Qed.


(** X22. [_read_file] on a path that does not exist answers [does not
    exist] after asking only whether it exists; on a path that exists and
    is no regular file it answers [is not a file] without asking for its
    size and without opening it. *)
Theorem read_file_missing_or_not_a_file (p : string) (s : state) :
  (fs_exists w (Path p) = Ok false ->
   runs (_read_file w (JStr p)) s
     (Ok ("Error: File '" ++ p ++ "' does not exist")) [FsExists (Path p)]) /\
  (fs_exists w (Path p) = Ok true ->
   fs_is_file w (Path p) = Ok false ->
   runs (_read_file w (JStr p)) s
     (Ok ("Error: '" ++ p ++ "' is not a file"))
     [FsExists (Path p); FsIsFile (Path p)]).
Proof.
  split.
  - intros He; run_tool; now rewrite He.
  - intros He Hf; run_tool; rewrite He; simpl; rewrite Hf; simpl.
    now rewrite <- !app_assoc.
Qed.

Lemma fs_flushed evs : forallb fs_event evs = true -> flushed evs = true.
Proof.
  induction evs as [|ev rest IH]; simpl; [reflexivity|].
  intros H; apply andb_true_iff in H as [H1 H2].
  destruct ev; simpl in *; try discriminate; auto.
Qed.

Lemma run_line_flushed line : keeps (fun evs => flushed evs = true) (run_line w line).
Proof.
  intros s; unfold run_line.
  destruct (String.eqb (strip line) ""); [exists (Ok tt), []; split; [apply runs_ret | reflexivity]|].
  set (parse_error := fun e : exn =>
         print (json_dumps w (response_error JNull (-32700)
                                  ("Parse error: " ++ exn_str e))) ;;; flush).
  assert (Hpe : forall e s0, runs (parse_error e) s0 (Ok tt)
                  [Stdout (json_dumps w (response_error JNull (-32700)
                                           ("Parse error: " ++ exn_str e)));
                   StdoutFlush]).
  { intros e s0; eapply (runs_bind _ _ _ _ _ [_] [_]); apply runs_call. }
  destruct (json_loads w (strip line)) as [request|e] eqn:Hload.
  - change (lift (Ok request)) with (@ret state _ request); rewrite bind_ret.
    destruct (confined_handle_request w fs_event request (fun _ H => H) s)
      as (r & evs & R & F).
    destruct r as [resp|e].
    + exists (Ok tt), (evs ++ [Stdout (json_dumps w resp); StdoutFlush])%list; split.
      * apply runs_try_ok; eapply runs_bind; [exact R|].
        eapply (runs_bind _ _ _ _ _ [_] [_]); apply runs_call.
      * apply flushed_app; [now apply fs_flushed | reflexivity].
    + destruct (is_class JSONDecodeError e) eqn:Hcls.
      * eexists (Ok tt), (evs ++ _)%list; split.
        -- eapply runs_try_caught;
             [apply runs_bind_raise; exact R | rewrite Hcls; reflexivity | apply Hpe].
        -- apply flushed_app; [now apply fs_flushed | reflexivity].
      * exists (Raise e), evs; split; [|now apply fs_flushed].
        apply runs_try_passed; [apply runs_bind_raise; exact R | now rewrite Hcls].
  - destruct (is_class JSONDecodeError e) eqn:Hcls.
    + eexists (Ok tt), ([] ++ _)%list; split;
        [eapply runs_try_caught;
           [apply runs_bind_raise, runs_lift | rewrite Hcls; reflexivity
           | rewrite extend_nil; apply Hpe]
        | reflexivity].
    + exists (Raise e), []; split; [|reflexivity].
      apply runs_try_passed; [apply runs_bind_raise, runs_lift | now rewrite Hcls].
Qed.

Lemma serve_flushed stdin : keeps (fun evs => flushed evs = true) (serve w stdin).
Proof.
  induction stdin as [|line rest IH]; intros s; simpl serve.
  - exists (Ok tt), []; split; [apply runs_ret | reflexivity].
  - destruct (run_line_flushed line (extend s [Stdin line])) as (r1 & e1 & R1 & F1).
    destruct r1 as [[]|e].
    + destruct (IH (extend (extend s [Stdin line]) e1)) as (r2 & e2 & R2 & F2).
      exists r2, (Stdin line :: (e1 ++ e2))%list; split.
      * apply runs_call_bind; eapply runs_bind; [exact R1 | exact R2].
      * simpl; now apply flushed_app.
    + exists (Raise e), (Stdin line :: e1); split; [|exact F1].
      apply runs_call_bind; now apply runs_bind_raise.
Qed.

(** X12. On any input, in any world, [run] flushes standard output right
    after each line it prints, also when the loop is ended by an
    exception. *)
Theorem every_print_is_flushed (stdin : list string) (s : state) :
  exists r evs, runs (run w stdin) s r evs /\ flushed evs = true.
Proof.
  destruct (serve_flushed stdin
              (extend (extend s [Stderr "🚀 MCP File Manager Server started!"])
                 [Stderr "💡 Send JSON-RPC requests via stdin"]))
    as (r & evs & R & F).
  exists r, (Stderr "🚀 MCP File Manager Server started!"
             :: Stderr "💡 Send JSON-RPC requests via stdin" :: evs); split.
  - unfold run, print_stderr; apply runs_call_bind, runs_call_bind; exact R.
  - exact F.
Qed.

End WithWorld.

Lemma strongly_sorted_nth {A} (R : A -> A -> Prop) l :
  StronglySorted R l ->
  forall i j a b,
    nth_error l i = Some a -> nth_error l j = Some b -> (i < j)%nat -> R a b.
Proof.
  induction 1 as [|x rest Hrest IH Hx]; intros i j a b Hi Hj Hlt.
  - destruct i; discriminate.
  - destruct j as [|j]; [lia|]; simpl in Hj.
    destruct i as [|i]; simpl in Hi.
    + injection Hi as <-.
      rewrite Forall_forall in Hx; apply Hx; eapply nth_error_In; eassumption.
    + apply (IH i j); [assumption | assumption | lia].
Qed.

(** X9. In the sorted lines of a listing every directory comes before
    every file: the mark of a directory sorts below the mark of a file,
    whatever the names. *)
Theorem directories_listed_before_files (files : list string) (i j : nat)
    (d f : string) (size : Z) :
  nth_error (sorted files) i = Some (dir_line d) ->
  nth_error (sorted files) j = Some (file_line f size) ->
  (i < j)%nat.
Proof.
  intros Hi Hj.
  destruct (Nat.lt_trichotomy i j) as [H | [H | H]]; [exact H | |].
  - subst j; rewrite Hi in Hj; discriminate.
  - pose proof (strongly_sorted_nth _ _ (sorted_ascending files) j i _ _ Hj Hi H) as Hle.
    discriminate Hle.
Qed.

Lemma directories_listed_before_files_witness :
  nth_error (sorted [file_line "a.txt" 10; dir_line "sub"]) 0
    = Some (dir_line "sub") /\
  nth_error (sorted [file_line "a.txt" 10; dir_line "sub"]) 1
    = Some (file_line "a.txt" 10) /\
  (0 < 1)%nat.
Proof.
  split; [reflexivity|]; split; [reflexivity|].
  apply (directories_listed_before_files
           [file_line "a.txt" 10; dir_line "sub"] 0 1 "sub" "a.txt" 10);
    reflexivity.
Defined.

Lemma list_files_listing_witness :
  let lines := sorted (child_lines ["sub"; "a.txt"] [ChildDir; ChildFile 10]) in
  runs (_list_files Demo.world (JStr ".")) MCPServer_init (Ok (listing "." lines))
    (FsExists (Path ".") :: FsIsDir (Path ".") :: FsIterdir (Path ".")
       :: children_events (Path ".") ["sub"; "a.txt"] [ChildDir; ChildFile 10]) /\
  Permutation lines (child_lines ["sub"; "a.txt"] [ChildDir; ChildFile 10]) /\
  StronglySorted ascending lines.
Proof.
  apply (list_files_listing Demo.world "." ["sub"; "a.txt"] [ChildDir; ChildFile 10]
           MCPServer_init); try reflexivity.
  repeat constructor.
Defined.

Lemma list_files_not_a_directory_witness :
  runs (_list_files Demo.world (JStr "blob")) MCPServer_init
    (Ok ("Error: Path '" ++ "blob" ++ "' is not a directory"))
    [FsExists (Path "blob"); FsIsDir (Path "blob")].
Proof.
  apply (list_files_not_a_directory Demo.world "blob" MCPServer_init); reflexivity.
Defined.

Lemma read_file_missing_or_not_a_file_witness :
  runs (_read_file Demo.world (JStr "nowhere")) MCPServer_init
    (Ok ("Error: File '" ++ "nowhere" ++ "' does not exist"))
    [FsExists (Path "nowhere")] /\
  runs (_read_file Demo.world (JStr ".")) MCPServer_init
    (Ok ("Error: '" ++ "." ++ "' is not a file"))
    [FsExists (Path "."); FsIsFile (Path ".")].
Proof.
  split.
  - apply (proj1 (read_file_missing_or_not_a_file Demo.world "nowhere"
                    MCPServer_init)); reflexivity.
  - apply (proj2 (read_file_missing_or_not_a_file Demo.world "."
                    MCPServer_init)); reflexivity.
Defined.

Lemma only_tools_call_touches_the_world_witness :
  exists resp,
    handle_request Demo.world
      (JDict [("jsonrpc", JStr "2.0"); ("id", JInt 1); ("method", JStr "initialize");
              ("params", JNull)])
      MCPServer_init
    = (Ok resp, MCPServer_init).
Proof.
  apply (only_tools_call_touches_the_world Demo.world
           [("jsonrpc", JStr "2.0"); ("id", JInt 1); ("method", JStr "initialize");
            ("params", JNull)] MCPServer_init).
  reflexivity.
Defined.

Lemma non_object_request_ends_the_loop_witness :
  handle_request Demo.world (JInt 7) MCPServer_init
    = (Raise (no_get (JInt 7)), MCPServer_init) /\
  runs (serve Demo.world ["7"; "{}"]) MCPServer_init (Raise (no_get (JInt 7)))
    [Stdin "7"].
Proof.
  apply (non_object_request_ends_the_loop Demo.world "7" (JInt 7) ["{}"]
           MCPServer_init); [discriminate | reflexivity | reflexivity].
Defined.

Lemma tools_call_with_bad_params_witness :
  handle_request Demo.world
    (JDict [("id", JInt 3); ("method", JStr "tools/call"); ("params", JNull)])
    MCPServer_init
  = (Ok (response_error (JInt 3) (-32603)
           "Internal error: 'NoneType' object has no attribute 'get'"),
     MCPServer_init) /\
  handle_request Demo.world
    (JDict [("id", JInt 4); ("method", JStr "tools/call");
            ("params", JDict [("name", JStr "list_files");
                              ("arguments", JList [])])])
    MCPServer_init
  = (Ok (response_error (JInt 4) (-32603)
           "Internal error: 'list' object has no attribute 'get'"),
     MCPServer_init).
Proof.
  split.
  - apply (proj1 (tools_call_with_bad_params Demo.world
                    [("id", JInt 3); ("method", JStr "tools/call"); ("params", JNull)]
                    MCPServer_init eq_refl)).
    reflexivity.
  - apply (proj2 (tools_call_with_bad_params Demo.world
                    [("id", JInt 4); ("method", JStr "tools/call");
                     ("params", JDict [("name", JStr "list_files");
                                       ("arguments", JList [])])]
                    MCPServer_init eq_refl)
             [("name", JStr "list_files"); ("arguments", JList [])] (JList []));
      [reflexivity | now left | reflexivity | reflexivity].
Defined.

Lemma tool_failures_are_results_witness :
  exists text s',
    handle_request Demo.world
      (JDict (Demo.tools_call 1 "read_file" [("path", JStr "nowhere")]))
      MCPServer_init
    = (Ok (response_result (JInt 1) (tool_result text)), s').
Proof.
  apply (tool_failures_are_results Demo.world
           (Demo.tools_call 1 "read_file" [("path", JStr "nowhere")])
           [("path", JStr "nowhere")] "read_file" MCPServer_init);
    [apply calls_tool_demo | now right].
Defined.

Lemma read_file_opens_only_small_regular_files_witness :
  exists p size,
    JStr "blob" = JStr p /\
    fs_exists Demo.world (Path p) = Ok true /\
    fs_is_file Demo.world (Path p) = Ok true /\
    fs_st_size Demo.world (Path p) = Ok size /\
    size <= MAX_SIZE.
Proof.
  apply (read_file_opens_only_small_regular_files Demo.world (JStr "blob")
           MCPServer_init
           (Ok "Error: Cannot read 'blob' - appears to be a binary file")
           [FsExists (Path "blob"); FsIsFile (Path "blob"); FsStat (Path "blob");
            FsOpen (Path "blob"); FsRead (Path "blob")]);
    reflexivity.
Defined.

Lemma only_read_file_opens_files_witness :
  names_tool (Demo.tools_call 5 "read_file" [("path", JStr "blob")]) "read_file"
  = true.
Proof.
  apply (only_read_file_opens_files Demo.world
           (Demo.tools_call 5 "read_file" [("path", JStr "blob")]) MCPServer_init
           (Ok (response_result (JInt 5)
                  (tool_result "Error: Cannot read 'blob' - appears to be a binary file")))
           [FsExists (Path "blob"); FsIsFile (Path "blob"); FsStat (Path "blob");
            FsOpen (Path "blob"); FsRead (Path "blob")]);
    reflexivity.
Defined.

End ServerExtra.

(** ** Facts about the client's wrappers *)

Module ClientExtra.

Import Client ClientApi ClientSpec.

Section WithWorld.

Variable b : Builtins.
Variable w : World.

Lemma send_request_not_started method params s :
  process s = None ->
  send_request w method params s
  = (Raise (Exn RuntimeError "Server not started"), s).
Proof.
  intros H; unfold send_request, bind, get_process; now rewrite H.
Qed.

(** A request that the child process takes and answers: the response is
    what [json.loads] makes of the line. *)
Lemma send_request_answered method params s line :
  process s <> None ->
  answers_with w s (request_line w (request_id s) method params) line ->
  String.eqb line "" = false ->
  send_request w method params s
  = (json_loads w (strip line),
     after_request s (request_line w (request_id s) method params)).
Proof.
  intros Hp (Hw & Hf & Hr) Hne; unfold send_request, bind, get_process.
  destruct (process s) as [p|] eqn:E; [clear Hp | now destruct Hp].
  unfold get_request_id, set_request_id, call, request_line in *; simpl.
  rewrite Hw; simpl; rewrite Hf; simpl; rewrite <- app_assoc; simpl.
  rewrite Hr; simpl; rewrite Hne.
  unfold lift, after_request; simpl; rewrite E.
  now rewrite <- !app_assoc.
Qed.

Lemma same_session_refl s : same_session s s.
Proof. now repeat split. Qed.

Lemma same_session_trans s1 s2 s3 :
  same_session s1 s2 -> same_session s2 s3 -> same_session s1 s3.
Proof.
  intros (A1 & B1 & C1 & D1) (A2 & B2 & C2 & D2); repeat split; congruence.
Qed.

Lemma settles_lift {A} (o : outcome A) : settles (lift o).
Proof. intros s; exists o, s; split; [reflexivity | apply same_session_refl]. Qed.

Lemma lands_ret {A} (a : A) : lands (ret a).
Proof. intros s; exists a, s; split; [reflexivity | apply same_session_refl]. Qed.

Lemma lands_print line : lands (print line).
Proof.
  intros s; exists tt; eexists; split; [reflexivity|].
  repeat split; simpl; now rewrite written_app, app_nil_r.
Qed.

Lemma lands_settles {A} (m : M A) : lands m -> settles m.
Proof. intros H s; destruct (H s) as (a & s' & E & S); now exists (Ok a), s'. Qed.

Lemma settles_bind {A B} (m : M A) (k : A -> M B) :
  settles m -> (forall a, settles (k a)) -> settles (bind m k).
Proof.
  intros Hm Hk s; destruct (Hm s) as ([a|e] & s1 & E1 & S1); unfold bind; rewrite E1.
  - destruct (Hk a s1) as (r & s2 & E2 & S2); exists r, s2; split; [exact E2|].
    now apply (same_session_trans s s1 s2).
  - now exists (Raise e), s1.
Qed.

Lemma lands_bind {A B} (m : M A) (k : A -> M B) :
  lands m -> (forall a, lands (k a)) -> lands (bind m k).
Proof.
  intros Hm Hk s; destruct (Hm s) as (a & s1 & E1 & S1); unfold bind; rewrite E1.
  destruct (Hk a s1) as (r & s2 & E2 & S2); exists r, s2; split; [exact E2|].
  now apply (same_session_trans s s1 s2).
Qed.

Create HintDb session.

#[local] Hint Resolve settles_lift lands_ret lands_print lands_settles
  settles_bind lands_bind : session.

(** A wrapper around [send_request]: it always returns; on a client that
    is started it sends exactly its request, and on a client that is not
    it sends nothing. *)
Lemma wrapper_lands {A} method params (k : JSON -> M A) (h : exn -> M A) s :
  (forall response, settles (k response)) ->
  (forall e, lands (h e)) ->
  exists a s',
    try_except (bind (send_request w method params) k) (fun e => Some (h e)) s
    = (Ok a, s') /\
    (process s <> None -> sent_one w method params s s') /\
    (process s = None -> same_session s s').
Proof.
  intros Hk Hh.
  assert (Hsend : exists r s1,
             send_request w method params s = (r, s1) /\
             (process s <> None -> sent_one w method params s s1) /\
             (process s = None -> same_session s s1)).
  { destruct (process s) as [p|] eqn:E.
    - destruct (send_request_step w method params s) as (r & s1 & E1 & P1 & I1 & W1);
        [now rewrite E|].
      exists r, s1; repeat split; try assumption; try discriminate.
    - exists (Raise (Exn RuntimeError "Server not started")), s.
      split; [now apply send_request_not_started|].
      split; [now intros H | intros _; apply same_session_refl]. }
  destruct Hsend as (r & s1 & E1 & Hon & Hoff).
  assert (Hmove : forall s2, same_session s1 s2 ->
             (process s <> None -> sent_one w method params s s2) /\
             (process s = None -> same_session s s2)).
  { intros s2 S2; split; intros H.
    - destruct (Hon H) as (P & I & W), S2 as (_ & P2 & I2 & W2).
      repeat split; congruence.
    - now apply (same_session_trans s s1 s2); [apply Hoff|]. }
  unfold try_except, bind; rewrite E1.
  destruct r as [response|e].
  - destruct (Hk response s1) as ([a|e] & s2 & E2 & S2); rewrite E2.
    + exists a, s2; split; [reflexivity | now apply Hmove].
    + destruct (Hh e s2) as (a & s3 & E3 & S3); exists a, s3.
      split; [exact E3 | apply Hmove; now apply (same_session_trans s1 s2 s3)].
  - destruct (Hh e s1) as (a & s2 & E2 & S2); exists a, s2.
    split; [exact E2 | now apply Hmove].
Qed.

Lemma initialize_lands s :
  exists a s',
    initialize b w s = (Ok a, s') /\
    (process s <> None -> sent_one w "initialize" initialize_params s s') /\
    (process s = None -> same_session s s').
Proof.
  apply (wrapper_lands "initialize" initialize_params).
  - intros response; apply settles_bind; [auto with session|].
    intros [|]; auto with session.
  - intros e; auto with session.
Qed.

Lemma list_tools_lands s :
  exists a s',
    list_tools b w s = (Ok a, s') /\
    (process s <> None -> sent_one w "tools/list" JNull s s') /\
    (process s = None -> same_session s s').
Proof.
  apply (wrapper_lands "tools/list" JNull).
  - intros response; apply settles_bind; [auto with session|].
    intros [|]; auto with session.
  - intros e; auto with session.
Qed.

Lemma call_tool_lands tool_name arguments s :
  exists a s',
    call_tool b w tool_name arguments s = (Ok a, s') /\
    (process s <> None ->
     sent_one w "tools/call" (call_params tool_name arguments) s s') /\
    (process s = None -> same_session s s').
Proof.
  apply (wrapper_lands "tools/call" (call_params tool_name arguments)).
  - intros response; apply settles_bind; [auto with session|].
    intros [|]; [|auto 6 with session].
    apply settles_bind; [auto with session|]; intros result.
    apply settles_bind; [auto with session|]; intros content.
    apply settles_bind.
    + destruct (truthy content); auto with session.
    + intros [|]; auto with session.
  - intros e; auto with session.
Qed.

(** X13. [initialize], [list_tools] and [call_tool] never raise, whatever
    the state of the client, the child process and the response: each
    returns a value. *)
Theorem wrappers_never_raise (tool_name : string) (arguments : JSON) (s : state) :
  (exists a s', initialize b w s = (Ok a, s')) /\
  (exists a s', list_tools b w s = (Ok a, s')) /\
  (exists a s', call_tool b w tool_name arguments s = (Ok a, s')).
Proof.
  destruct (initialize_lands s) as (a1 & s1 & E1 & _).
  destruct (list_tools_lands s) as (a2 & s2 & E2 & _).
  destruct (call_tool_lands tool_name arguments s) as (a3 & s3 & E3 & _).
  repeat split; eauto.
Qed.

(** X14. On a client whose server is started, each of [initialize],
    [list_tools] and [call_tool] writes exactly one request, its own,
    with the current id, and moves the counter on by one, whatever the
    child process does and whatever comes back. *)
Theorem wrappers_send_one_request (tool_name : string) (arguments : JSON) (s : state) :
  process s <> None ->
  (exists a s', initialize b w s = (Ok a, s') /\
                sent_one w "initialize" initialize_params s s') /\
  (exists a s', list_tools b w s = (Ok a, s') /\
                sent_one w "tools/list" JNull s s') /\
  (exists a s', call_tool b w tool_name arguments s = (Ok a, s') /\
                sent_one w "tools/call" (call_params tool_name arguments) s s').
Proof.
  intros Hp.
  destruct (initialize_lands s) as (a1 & s1 & E1 & H1 & _).
  destruct (list_tools_lands s) as (a2 & s2 & E2 & H2 & _).
  destruct (call_tool_lands tool_name arguments s) as (a3 & s3 & E3 & H3 & _).
  repeat split; eauto.
Qed.

(** X15. On a client whose server was not started nothing is sent:
    [initialize] prints the error and returns False, [list_tools] prints
    the error and returns the empty list, [call_tool] returns the error
    as text. *)
Theorem wrappers_without_server (tool_name : string) (arguments : JSON) (s : state) :
  process s = None ->
  initialize b w s
  = (Ok false, printed s "❌ Initialization error: Server not started") /\
  list_tools b w s
  = (Ok (JList []), printed s "❌ Error listing tools: Server not started") /\
  call_tool b w tool_name arguments s
  = (Ok (JStr "Error calling tool: Server not started"), s).
Proof.
  intros Hp; unfold initialize, list_tools, call_tool, try_except, bind.
  rewrite !(send_request_not_started _ _ s Hp).
  repeat split.
Qed.

Section Answered.

(** The request [method], [params] is sent from [s], taken by the child
    process, and the line that comes back parses to [resp]. *)
Variables (method : string) (params : JSON) (s : state) (line : string) (resp : JSON).
Let data : string := request_line w (request_id s) method params.
Hypothesis started : process s <> None.
Hypothesis answered : answers_with w s data line.
Hypothesis nonblank : String.eqb line "" = false.
Hypothesis parsed : json_loads w (strip line) = Ok resp.

Lemma send_request_parsed :
  send_request w method params s = (Ok resp, after_request s data).
Proof.
  rewrite (send_request_answered method params s line started answered nonblank).
  now rewrite parsed.
Qed.

End Answered.

(** X16. [call_tool] unpacks what the server packs: from a result made
    by [tool_result] it returns the text, from an error response it
    returns [Error: ] followed by the message, and from a result whose
    content is empty it returns [No content returned]. *)
Theorem call_tool_unpacks (tool_name : string) (arguments : JSON) (s : state)
    (line : string) (resp : JSON) :
  let data := request_line w (request_id s) "tools/call"
                (call_params tool_name arguments) in
  process s <> None ->
  answers_with w s data line ->
  String.eqb line "" = false ->
  json_loads w (strip line) = Ok resp ->
  (forall id text,
      resp = Server.response_result id (Server.tool_result text) ->
      call_tool b w tool_name arguments s = (Ok (JStr text), after_request s data)) /\
  (forall id code message,
      resp = Server.response_error id code message ->
      call_tool b w tool_name arguments s
      = (Ok (JStr ("Error: " ++ message)), after_request s data)) /\
  (forall id,
      resp = Server.response_result id (JDict [("content", JList [])]) ->
      call_tool b w tool_name arguments s
      = (Ok (JStr "No content returned"), after_request s data)).
Proof.
  intros data Hp Ha Hne Hload.
  pose proof (send_request_parsed _ _ s line resp Hp Ha Hne Hload) as Hs.
  repeat split; intros; subst resp;
    unfold call_tool, try_except, bind, call_params in *; rewrite Hs; reflexivity.
Qed.

(** X23. [start_server] never raises: when [Popen] succeeds it records
    the process, prints that the server started and returns True; when
    [Popen] raises it prints the failure and returns False, and the client
    stays without a process. The request counter is not touched. *)
Theorem start_server_outcome (s : state) :
  (popen w (server_command s) = Ok tt ->
   exists s',
     start_server w s = (Ok true, s') /\
     process s' = Some tt /\ request_id s' = request_id s /\
     log s' = (log s ++ [Popen (server_command s);
                         Print "✅ MCP Server started successfully!"])%list) /\
  (forall e,
     popen w (server_command s) = Raise e ->
     exists s',
       start_server w s = (Ok false, s') /\
       process s' = process s /\ request_id s' = request_id s /\
       log s' = (log s ++ [Popen (server_command s);
                           Print ("❌ Failed to start server: " ++ exn_str e)])%list).
Proof.
  split; [intros H | intros e H];
    unfold start_server, try_except, bind, get_server_command, set_process,
      print, call, ret; simpl; rewrite H; simpl;
    eexists; (split; [reflexivity|]); simpl; rewrite <- app_assoc; now repeat split.
Qed.

(** X24. When the child process takes a request and then closes its
    output without a line, the id is used up all the same, and the
    failure stays inside the wrappers: [call_tool] returns [Error calling
    tool: No response from server], [initialize] prints the error and
    returns False, [list_tools] prints it and returns the empty list. *)
Theorem wrappers_without_response (tool_name : string) (arguments : JSON) (s : state) :
  process s <> None ->
  (answers_with w s (request_line w (request_id s) "tools/call"
                       (call_params tool_name arguments)) "" ->
   call_tool b w tool_name arguments s
   = (Ok (JStr "Error calling tool: No response from server"),
      after_request s (request_line w (request_id s) "tools/call"
                         (call_params tool_name arguments)))) /\
  (answers_with w s (request_line w (request_id s) "initialize" initialize_params) "" ->
   initialize b w s
   = (Ok false,
      printed (after_request s (request_line w (request_id s) "initialize"
                                  initialize_params))
        "❌ Initialization error: No response from server")) /\
  (answers_with w s (request_line w (request_id s) "tools/list" JNull) "" ->
   list_tools b w s
   = (Ok (JList []),
      printed (after_request s (request_line w (request_id s) "tools/list" JNull))
        "❌ Error listing tools: No response from server")).
Proof.
  intros Hp.
  assert (Hs : forall method params,
             answers_with w s (request_line w (request_id s) method params) "" ->
             send_request w method params s
             = (Raise (Exn RuntimeError "No response from server"),
                after_request s (request_line w (request_id s) method params))).
  { intros method params (Hw & Hf & Hr); unfold send_request, bind, get_process.
    destruct (process s) as [p|] eqn:E; [clear Hp | now destruct Hp].
    unfold get_request_id, set_request_id, call, request_line in *; simpl.
    rewrite Hw; simpl; rewrite Hf; simpl; rewrite <- app_assoc; simpl.
    rewrite Hr; simpl.
    unfold raise, after_request; simpl; rewrite E.
    now rewrite <- !app_assoc. }
  repeat split; intros Ha;
    unfold call_tool, initialize, list_tools, try_except, bind;
    fold initialize_params; fold (call_params tool_name arguments);
    rewrite (Hs _ _ Ha); reflexivity.
Qed.

Section EndToEnd.

(** The child process is the server [sw] in the state [srv]: the line
    that comes back parses to the response [handle_request] gives to the
    request the client wrote. *)
Variables (sw : Server.World) (srv srv' : Server.state).
Variables (s : state) (line : string) (resp : JSON).
Hypothesis started : process s <> None.
Hypothesis nonblank : String.eqb line "" = false.
Hypothesis parsed : json_loads w (strip line) = Ok resp.

(** X17. [call_tool] against the server: for [list_files] and
    [read_file] with an object of arguments it returns exactly the text
    the tool of the server computes for the path of the arguments, and for
    any other tool name it returns the text of the internal error. *)
Theorem call_tool_end_to_end (tool_name : string) (args : list (string * JSON)) :
  let params := call_params tool_name (JDict args) in
  let data := request_line w (request_id s) "tools/call" params in
  answers_with w s data line ->
  Server.handle_request sw (make_request (request_id s) "tools/call" params) srv
  = (Ok resp, srv') ->
  (tool_name = "list_files" ->
   exists text,
     Server._list_files sw (dict_get args "path" (JStr ".")) srv = (Ok text, srv') /\
     call_tool b w tool_name (JDict args) s = (Ok (JStr text), after_request s data)) /\
  (tool_name = "read_file" ->
   exists text,
     Server._read_file sw (dict_get args "path" JNull) srv = (Ok text, srv') /\
     call_tool b w tool_name (JDict args) s = (Ok (JStr text), after_request s data)) /\
  (tool_name <> "list_files" -> tool_name <> "read_file" ->
   call_tool b w tool_name (JDict args) s
   = (Ok (JStr ("Error: Internal error: Unknown tool: " ++ tool_name)),
      after_request s data)).
Proof.
  intros params data; subst data params; unfold call_params; intros Ha Hh.
  pose proof (send_request_parsed _ _ s line resp started Ha nonblank parsed) as Hs.
  set (d := [("jsonrpc", JStr "2.0"); ("id", JInt (request_id s));
             ("method", JStr "tools/call");
             ("params", JDict [("name", JStr tool_name); ("arguments", JDict args)])]).
  change (make_request (request_id s) "tools/call" _) with (JDict d) in Hh.
  assert (Hcall : Server.calls_tool d tool_name args).
  { split; [reflexivity|]; eexists; split; [reflexivity|].
    split; [apply String.eqb_refl | reflexivity]. }
  repeat split.
  - intros Ht; rewrite Ht in Hcall.
    destruct (ServerSpec.returns__list_files sw (dict_get args "path" (JStr ".")) srv)
      as (text & evs & R & _).
    pose proof (ServerSpec.call_list_files sw d args srv text evs Hcall R) as Hr.
    unfold Server.runs in Hr, R; rewrite Hr in Hh; injection Hh as <- <-.
    exists text; split; [exact R|].
    unfold call_tool, try_except, bind; rewrite Hs; reflexivity.
  - intros Ht; rewrite Ht in Hcall.
    destruct (ServerSpec.returns__read_file sw (dict_get args "path" JNull) srv)
      as (text & evs & R & _).
    pose proof (ServerSpec.call_read_file sw d args srv text evs Hcall R) as Hr.
    unfold Server.runs in Hr, R; rewrite Hr in Hh; injection Hh as <- <-.
    exists text; split; [exact R|].
    unfold call_tool, try_except, bind; rewrite Hs; reflexivity.
  - intros H1 H2.
    apply String.eqb_neq in H1, H2.
    unfold Server.handle_request in Hh; simpl in Hh.
    rewrite !ServerSpec.bind_ret in Hh; simpl in Hh.
    rewrite !ServerSpec.bind_ret in Hh; unfold eq_str in Hh; rewrite H1, H2 in Hh.
    unfold try_except, bind, raise, ret in Hh; simpl in Hh.
    injection Hh as <- _.
    unfold call_tool, try_except, bind; rewrite Hs; reflexivity.
Qed.

(** X18. The handshake against the server: [initialize] prints that the
    connection is initialized and returns True, and [list_tools] returns
    the descriptors of the server's registry, in its order; the server is
    left as it was. *)
Theorem handshake_end_to_end :
  (answers_with w s (request_line w (request_id s) "initialize" initialize_params) line ->
   Server.handle_request sw
     (make_request (request_id s) "initialize" initialize_params) srv
   = (Ok resp, srv') ->
   srv' = srv /\
   initialize b w s
   = (Ok true,
      printed (after_request s
                 (request_line w (request_id s) "initialize" initialize_params))
        "🤝 MCP connection initialized!")) /\
  (answers_with w s (request_line w (request_id s) "tools/list" JNull) line ->
   Server.handle_request sw (make_request (request_id s) "tools/list" JNull) srv
   = (Ok resp, srv') ->
   srv' = srv /\
   list_tools b w s
   = (Ok (JList (map snd (Server.self_tools srv))),
      after_request s (request_line w (request_id s) "tools/list" JNull))).
Proof.
  split; intros Ha Hh;
    pose proof (send_request_parsed _ _ s line resp started Ha nonblank parsed) as Hs;
    unfold Server.handle_request in Hh; simpl in Hh;
    rewrite !ServerSpec.bind_ret in Hh;
    unfold try_except, bind, Server.get_tools, ret in Hh; simpl in Hh;
    injection Hh as <- <-; (split; [reflexivity|]).
  - unfold initialize, try_except, bind; fold initialize_params; rewrite Hs; reflexivity.
  - unfold list_tools, try_except, bind; rewrite Hs; reflexivity.
Qed.

End EndToEnd.

End WithWorld.

(** *** The theorems at work in the demo world *)

Lemma wrappers_send_one_request_witness :
  (exists a s',
      initialize DemoApi.builtins (DemoApi.child DemoApi.initialize_response)
        DemoApi.started = (Ok a, s') /\
      sent_one (DemoApi.child DemoApi.initialize_response)
        "initialize" initialize_params DemoApi.started s') /\
  (exists a s',
      list_tools DemoApi.builtins (DemoApi.child DemoApi.initialize_response)
        DemoApi.started = (Ok a, s') /\
      sent_one (DemoApi.child DemoApi.initialize_response)
        "tools/list" JNull DemoApi.started s') /\
  (exists a s',
      call_tool DemoApi.builtins (DemoApi.child DemoApi.initialize_response)
        "list_files" (JDict [("path", JStr ".")]) DemoApi.started = (Ok a, s') /\
      sent_one (DemoApi.child DemoApi.initialize_response) "tools/call"
        (call_params "list_files" (JDict [("path", JStr ".")])) DemoApi.started s').
Proof.
  apply (wrappers_send_one_request DemoApi.builtins
           (DemoApi.child DemoApi.initialize_response)
           "list_files" (JDict [("path", JStr ".")]) DemoApi.started).
  discriminate.
Defined.

Lemma wrappers_without_server_witness :
  initialize DemoApi.builtins (DemoApi.child DemoApi.initialize_response) DemoApi.fresh
  = (Ok false,
     printed DemoApi.fresh "❌ Initialization error: Server not started") /\
  list_tools DemoApi.builtins (DemoApi.child DemoApi.initialize_response) DemoApi.fresh
  = (Ok (JList []),
     printed DemoApi.fresh "❌ Error listing tools: Server not started") /\
  call_tool DemoApi.builtins (DemoApi.child DemoApi.initialize_response)
    "list_files" (JDict [("path", JStr ".")]) DemoApi.fresh
  = (Ok (JStr "Error calling tool: Server not started"), DemoApi.fresh).
Proof.
  apply (wrappers_without_server DemoApi.builtins
           (DemoApi.child DemoApi.initialize_response)
           "list_files" (JDict [("path", JStr ".")]) DemoApi.fresh).
  reflexivity.
Defined.

Lemma start_server_outcome_witness :
  (exists s',
      start_server (DemoApi.child DemoApi.initialize_response) DemoApi.fresh
      = (Ok true, s') /\
      process s' = Some tt /\ request_id s' = request_id DemoApi.fresh /\
      log s' = (log DemoApi.fresh
                  ++ [Popen (server_command DemoApi.fresh);
                      Print "✅ MCP Server started successfully!"])%list) /\
  (exists s',
      start_server DemoApi.no_python DemoApi.fresh = (Ok false, s') /\
      process s' = process DemoApi.fresh /\
      request_id s' = request_id DemoApi.fresh /\
      log s' = (log DemoApi.fresh
                  ++ [Popen (server_command DemoApi.fresh);
                      Print ("❌ Failed to start server: "
                             ++ "[Errno 2] No such file or directory: 'python3'")])%list).
Proof.
  split.
  - apply (proj1 (start_server_outcome (DemoApi.child DemoApi.initialize_response)
                    DemoApi.fresh)); reflexivity.
  - apply (proj2 (start_server_outcome DemoApi.no_python DemoApi.fresh)
             (Exn OSError "[Errno 2] No such file or directory: 'python3'"));
      reflexivity.
Defined.

Lemma wrappers_without_response_witness :
  call_tool DemoApi.builtins DemoApi.silent "list_files" (JDict [("path", JStr ".")])
    DemoApi.started
  = (Ok (JStr "Error calling tool: No response from server"),
     after_request DemoApi.started
       (request_line DemoApi.silent (request_id DemoApi.started) "tools/call"
          (call_params "list_files" (JDict [("path", JStr ".")])))).
Proof.
  apply (proj1 (wrappers_without_response DemoApi.builtins DemoApi.silent
                  "list_files" (JDict [("path", JStr ".")]) DemoApi.started
                  ltac:(discriminate))).
  repeat split.
Defined.

Lemma answers_with_child resp data :
  answers_with (DemoApi.child resp) DemoApi.started data (Demo.dumps resp ++ nl).
Proof. repeat split. Defined.

Lemma call_tool_unpacks_witness :
  call_tool DemoApi.builtins (DemoApi.child DemoApi.listing_response)
    "list_files" (JDict [("path", JStr ".")]) DemoApi.started
  = (Ok (JStr DemoApi.listing_text),
     after_request DemoApi.started
       (request_line (DemoApi.child DemoApi.listing_response) 1 "tools/call"
          (call_params "list_files" (JDict [("path", JStr ".")])))) /\
  call_tool DemoApi.builtins (DemoApi.child DemoApi.error_response)
    "write_file" (JDict []) DemoApi.started
  = (Ok (JStr "Error: Internal error: Unknown tool: write_file"),
     after_request DemoApi.started
       (request_line (DemoApi.child DemoApi.error_response) 1 "tools/call"
          (call_params "write_file" (JDict [])))).
Proof.
  split.
  - refine (proj1 (call_tool_unpacks DemoApi.builtins
                     (DemoApi.child DemoApi.listing_response)
                     "list_files" (JDict [("path", JStr ".")]) DemoApi.started
                     (Demo.dumps DemoApi.listing_response ++ nl)
                     DemoApi.listing_response _ _ _ _)
              (JInt 1) DemoApi.listing_text _);
      [discriminate | apply answers_with_child | reflexivity | reflexivity
      | reflexivity].
  - refine (proj1 (proj2 (call_tool_unpacks DemoApi.builtins
                            (DemoApi.child DemoApi.error_response)
                            "write_file" (JDict []) DemoApi.started
                            (Demo.dumps DemoApi.error_response ++ nl)
                            DemoApi.error_response _ _ _ _))
              (JInt 1) (-32603) "Internal error: Unknown tool: write_file" _);
      [discriminate | apply answers_with_child | reflexivity | reflexivity
      | reflexivity].
Defined.

Lemma call_tool_end_to_end_witness :
  exists text,
    Server._list_files Demo.world (dict_get [("path", JStr ".")] "path" (JStr "."))
      Server.MCPServer_init
    = (Ok text,
       snd (Server.handle_request Demo.world
              (make_request 1 "tools/call"
                 (call_params "list_files" (JDict [("path", JStr ".")])))
              Server.MCPServer_init)) /\
    call_tool DemoApi.builtins (DemoApi.child DemoApi.listing_response)
      "list_files" (JDict [("path", JStr ".")]) DemoApi.started
    = (Ok (JStr text),
       after_request DemoApi.started
         (request_line (DemoApi.child DemoApi.listing_response) 1 "tools/call"
            (call_params "list_files" (JDict [("path", JStr ".")])))).
Proof.
  apply (proj1 (call_tool_end_to_end DemoApi.builtins
                  (DemoApi.child DemoApi.listing_response)
                  Demo.world Server.MCPServer_init _ DemoApi.started
                  (Demo.dumps DemoApi.listing_response ++ nl)
                  DemoApi.listing_response
                  ltac:(discriminate) eq_refl eq_refl
                  "list_files" [("path", JStr ".")]
                  (answers_with_child _ _) eq_refl) eq_refl).
Defined.

Lemma handshake_end_to_end_witness :
  Server.MCPServer_init = Server.MCPServer_init /\
  initialize DemoApi.builtins (DemoApi.child DemoApi.initialize_response)
    DemoApi.started
  = (Ok true,
     printed (after_request DemoApi.started
                (request_line (DemoApi.child DemoApi.initialize_response) 1
                   "initialize" initialize_params))
       "🤝 MCP connection initialized!").
Proof.
  apply (proj1 (handshake_end_to_end DemoApi.builtins
                  (DemoApi.child DemoApi.initialize_response)
                  Demo.world Server.MCPServer_init Server.MCPServer_init
                  DemoApi.started
                  (Demo.dumps DemoApi.initialize_response ++ nl)
                  DemoApi.initialize_response
                  ltac:(discriminate) eq_refl eq_refl));
    [apply answers_with_child | reflexivity].
Defined.

End ClientExtra.

(** ** Facts about the interactive turn *)

Module ClientUiFacts.

Import Client ClientApi ClientUi ClientSpec ClientExtra.

(** *** What [strip] leaves *)

Lemma length_drop n s : String.length (drop n s) = (String.length s - n)%nat.
Proof.
  revert s; induction n as [|n IH]; intros s; simpl; [lia|].
  destruct s; simpl; [reflexivity | apply IH].
Qed.

Lemma ws_len_nonempty s : ws_len s <> O -> s <> "".
Proof. intros H ->; now apply H. Qed.

Lemma lstrip_fuel_enough n :
  forall s, (String.length s <= n)%nat -> lstrip_fuel n s = lstrip s.
Proof.
  induction n as [n IH] using (well_founded_induction PeanoNat.Nat.lt_wf_0).
  intros s Hs; unfold lstrip.
  destruct n as [|n]; destruct s as [|c s']; simpl String.length in *; try lia;
    try reflexivity.
  cbn [lstrip_fuel].
  destruct (ws_len (String c s')) as [|k] eqn:E; [reflexivity|].
  rewrite (IH n), (IH (String.length s')); try lia; try reflexivity;
    rewrite length_drop; simpl; lia.
Qed.

(** The equation of [lstrip]. *)
Lemma lstrip_eq s :
  lstrip s = match ws_len s with O => s | k => lstrip (drop k s) end.
Proof.
  unfold lstrip at 1; destruct s as [|c s']; [reflexivity|].
  cbn [String.length lstrip_fuel].
  destruct (ws_len (String c s')) as [|k] eqn:E; [reflexivity|].
  apply lstrip_fuel_enough; rewrite length_drop; simpl; lia.
Qed.

Lemma lstrip_idempotent s : lstrip (lstrip s) = lstrip s.
Proof.
  remember (String.length s) as n eqn:Hn; revert s Hn.
  induction n as [n IH] using (well_founded_induction PeanoNat.Nat.lt_wf_0).
  intros s Hn; rewrite (lstrip_eq s).
  destruct (ws_len s) as [|k] eqn:E.
  - now rewrite lstrip_eq, E.
  - apply (IH (String.length (drop (S k) s))); [|reflexivity].
    assert (s <> "") by (apply ws_len_nonempty; now rewrite E).
    rewrite length_drop; destruct s; [easy | simpl in *; lia].
Qed.

(** White space at the head of [a] is the same at the head of [a ++ q]. *)
Lemma ws_len_app a q :
  ws_len a <> O ->
  ws_len (a ++ q) = ws_len a /\
  drop (ws_len a) (a ++ q) = drop (ws_len a) a ++ q.
Proof.
  destruct a as [|c1 a1]; [easy|].
  unfold ws_len; cbn [append].
  destruct (_ || _)%bool; [intros _; now split|].
  destruct a1 as [|c2 a2]; [easy|]; cbn [append].
  destruct (_ && _)%bool; [intros _; now split|].
  destruct a2 as [|c3 a3]; [easy|]; cbn [append].
  destruct (_ || _)%bool; [intros _; now split | easy].
Qed.

Lemma lstrip_blank_app a q : lstrip a = "" -> lstrip q = "" -> lstrip (a ++ q) = "".
Proof.
  remember (String.length a) as n eqn:Hn; revert a Hn.
  induction n as [n IH] using (well_founded_induction PeanoNat.Nat.lt_wf_0).
  intros a Hn Ha Hq.
  destruct a as [|c a']; [exact Hq|].
  rewrite lstrip_eq in Ha.
  destruct (ws_len (String c a')) as [|k] eqn:E; [discriminate|].
  destruct (ws_len_app (String c a') q) as [E1 E2]; [now rewrite E|].
  rewrite E in E1, E2.
  rewrite (lstrip_eq (String c a' ++ q)), E1, E2.
  apply (IH (String.length (drop (S k) (String c a')))).
  - subst n; rewrite length_drop; simpl; lia.
  - reflexivity.
  - exact Ha.
  - exact Hq.
Qed.

Lemma rstrip_eq c rest :
  rstrip (String c rest)
  = if all_ws (String c rest) then "" else String c (rstrip rest).
Proof. reflexivity. Qed.

Lemma rstrip_empty z : rstrip z = "" -> lstrip z = "".
Proof.
  destruct z as [|c rest]; [reflexivity|].
  rewrite rstrip_eq; unfold all_ws.
  destruct (String.eqb_spec (lstrip (String c rest)) ""); [easy | discriminate].
Qed.

(** What [rstrip] takes away is white space. *)
Lemma rstrip_tail z : exists q, z = rstrip z ++ q /\ lstrip q = "".
Proof.
  induction z as [|c rest IH]; [now exists ""|].
  rewrite rstrip_eq; unfold all_ws.
  destruct (String.eqb_spec (lstrip (String c rest)) "") as [H | H].
  - now exists (String c rest).
  - destruct IH as (q & Hq & Hb); exists q; split; [|exact Hb].
    simpl; now rewrite <- Hq.
Qed.

Lemma rstrip_app p : forall y q,
  rstrip y = p ++ q -> exists r, y = p ++ r /\ rstrip r = q.
Proof.
  induction p as [|c p IH]; intros y q H; [now exists y|].
  destruct y as [|c' rest]; [discriminate|].
  rewrite rstrip_eq in H; destruct (all_ws (String c' rest)); [discriminate|].
  simpl in H; injection H as -> H.
  destruct (IH rest q H) as (r & -> & Hr); now exists r.
Qed.

(** After a stripped line that goes on behind a space, what follows the
    space is not blank. *)
Lemma strip_after_space raw p t :
  strip raw = p ++ String " " t -> strip t <> "".
Proof.
  unfold strip at 1; intros H.
  destruct (rstrip_app p _ _ H) as (r0 & _ & Hr0).
  destruct r0 as [|c r]; [discriminate|].
  rewrite rstrip_eq in Hr0; unfold all_ws in Hr0.
  destruct (String.eqb_spec (lstrip (String c r)) "") as [|Hne]; [discriminate|].
  injection Hr0 as -> Hr.
  assert (Hr' : lstrip r <> "").
  { intros E; apply Hne; rewrite lstrip_eq; exact E. }
  intros Hs; unfold strip in Hs; apply rstrip_empty in Hs.
  rewrite lstrip_idempotent in Hs.
  destruct (rstrip_tail r) as (q & Hq & Hb).
  apply Hr'; rewrite Hq, Hr; now apply lstrip_blank_app.
Qed.

Lemma prefix_split p : forall s,
  String.prefix p s = true -> s = p ++ drop (String.length p) s.
Proof.
  induction p as [|c p IH]; intros s H; [reflexivity|].
  destruct s as [|c' s']; [discriminate|]; simpl in H.
  destruct (Ascii.ascii_dec c c') as [->|]; [|discriminate].
  simpl; f_equal; now apply IH.
Qed.

(** *** What a turn prints *)

Section Emits.

Variable good : event -> Prop.
Hypothesis good_io : forall ev, (forall line, ev <> Print line) -> good ev.

Lemma emits_still {A} (m : M A) :
  (forall s, exists r, m s = (r, s)) -> emits good m.
Proof.
  intros H s; destruct (H s) as (r & E); exists r, s, [].
  split; [exact E | split; [now rewrite app_nil_r | constructor]].
Qed.

Lemma emits_ret {A} (a : A) : emits good (ret a).
Proof. apply emits_still; intros s; now exists (Ok a). Qed.

Lemma emits_raise {A} (e : exn) : emits good (@raise state A e).
Proof. apply emits_still; intros s; now exists (Raise e). Qed.

Lemma emits_lift {A} (o : outcome A) : emits good (lift o).
Proof. apply emits_still; intros s; now exists o. Qed.

Lemma emits_call {A} ev (answer : list event -> outcome A) :
  good ev -> emits good (call ev answer).
Proof.
  intros H s; eexists; eexists; exists [ev].
  split; [reflexivity | split; [reflexivity | now constructor]].
Qed.

Lemma emits_print line : good (Print line) -> emits good (print line).
Proof. apply emits_call. Qed.

Lemma emits_bind {A B} (m : M A) (k : A -> M B) :
  emits good m -> (forall a, emits good (k a)) -> emits good (bind m k).
Proof.
  intros Hm Hk s; destruct (Hm s) as ([a|e] & s1 & e1 & E1 & L1 & F1);
    unfold bind; rewrite E1.
  - destruct (Hk a s1) as (r & s2 & e2 & E2 & L2 & F2).
    exists r, s2, (e1 ++ e2)%list.
    split; [exact E2 | split; [now rewrite L2, L1, app_assoc | now apply Forall_app]].
  - now exists (Raise e), s1, e1.
Qed.

Lemma emits_try {A} (m : M A) (h : exn -> M A) :
  emits good m -> (forall e, emits good (h e)) ->
  emits good (try_except m (fun e => Some (h e))).
Proof.
  intros Hm Hh s; destruct (Hm s) as ([a|e] & s1 & e1 & E1 & L1 & F1);
    unfold try_except; rewrite E1.
  - now exists (Ok a), s1, e1.
  - destruct (Hh e s1) as (r & s2 & e2 & E2 & L2 & F2).
    exists r, s2, (e1 ++ e2)%list.
    split; [exact E2 | split; [now rewrite L2, L1, app_assoc | now apply Forall_app]].
Qed.

Variable w : World.

Lemma emits_send_request method params : emits good (send_request w method params).
Proof.
  unfold send_request.
  apply emits_bind; [apply emits_still; intros s; now eexists|].
  intros [p|]; [|apply emits_raise].
  apply emits_bind; [apply emits_still; intros s; now eexists|]; intros id.
  apply emits_bind.
  { intros s; eexists; eexists; exists [].
    split; [reflexivity | split; [simpl; now rewrite app_nil_r | constructor]]. }
  intros _.
  apply emits_bind; [apply emits_call, good_io; discriminate|]; intros _.
  apply emits_bind; [apply emits_call, good_io; discriminate|]; intros _.
  apply emits_bind; [apply emits_call, good_io; discriminate|]; intros line.
  destruct (String.eqb line ""); [apply emits_raise | apply emits_lift].
Qed.

End Emits.

Lemma not_the_prompt_io ev : (forall line, ev <> Print line) -> not_the_prompt ev.
Proof. intros H; apply H. Qed.

Ltac other_line :=
  apply emits_print; unfold not_the_prompt; simpl; discriminate.

Create HintDb emits.

#[local] Hint Resolve emits_ret emits_raise emits_lift emits_bind : emits.

Section Turn.

Variable b : Builtins.
Variable w : World.

Lemma list_tools_quiet : emits not_the_prompt (list_tools b w).
Proof.
  apply emits_try.
  - apply emits_bind; [apply emits_send_request, not_the_prompt_io|]; intros response.
    apply emits_bind; [apply emits_lift|]; intros [|].
    + auto with emits.
    + apply emits_bind; [other_line | intros; apply emits_ret].
  - intros e; apply emits_bind; [other_line | intros; apply emits_ret].
Qed.

Lemma call_tool_quiet tool_name arguments :
  emits not_the_prompt (call_tool b w tool_name arguments).
Proof.
  apply emits_try; [|intros e; apply emits_ret].
  apply emits_bind; [apply emits_send_request, not_the_prompt_io|]; intros response.
  apply emits_bind; [apply emits_lift|]; intros [|]; [|auto 6 with emits].
  apply emits_bind; [apply emits_lift|]; intros result.
  apply emits_bind; [apply emits_lift|]; intros content.
  apply emits_bind.
  - destruct (truthy content); auto with emits.
  - intros [|]; auto with emits.
Qed.

Lemma print_tools_quiet tools : emits not_the_prompt (print_tools b tools).
Proof.
  induction tools as [|tool rest IH]; simpl; [apply emits_ret|].
  apply emits_bind; [apply emits_lift|]; intros name.
  apply emits_bind; [apply emits_lift|]; intros description.
  apply emits_bind; [other_line | intros _; exact IH].
Qed.

(** A command that starts with a word and a space has an argument. *)
Lemma argument_not_blank raw word :
  String.prefix (word ++ " ") (strip raw) = true ->
  String.eqb (strip (drop (String.length (word ++ " ")) (strip raw))) "" = false.
Proof.
  intros H; apply prefix_split in H.
  apply String.eqb_neq, (strip_after_space raw word).
  remember (drop (String.length (word ++ " ")) (strip raw)) as t eqn:Ht.
  clear Ht; rewrite H; clear H.
  induction word as [|c word IH]; simpl; [reflexivity | now rewrite IH].
Qed.

(** X19. A turn of the interactive loop never prints [Please provide a
    file path], whatever was typed and whatever the child process does:
    a stripped command that starts with [cat ] always has a path after
    it, so the branch that prints the line cannot be taken. *)
Theorem file_path_prompt_is_never_printed (raw : string) (s : state) :
  exists r s' evs,
    interactive_turn b w raw s = (r, s') /\
    log s' = (log s ++ evs)%list /\
    Forall not_the_prompt evs.
Proof.
  revert s; change (emits not_the_prompt (interactive_turn b w raw)).
  unfold interactive_turn; cbv zeta.
  apply emits_try;
    [|intros e; apply emits_bind; [other_line | intros; apply emits_ret]].
  destruct (String.eqb (strip raw) ""); [apply emits_ret|].
  destruct (String.eqb (strip raw) "quit"); [apply emits_ret|].
  destruct (String.eqb (strip raw) "list").
  { apply emits_bind; [apply list_tools_quiet|]; intros tools.
    apply emits_bind; [other_line|]; intros _.
    apply emits_bind; [apply emits_lift|]; intros items.
    apply emits_bind; [apply print_tools_quiet | intros; apply emits_ret]. }
  destruct (String.prefix "ls " (strip raw)).
  { apply emits_bind; [apply call_tool_quiet|]; intros result.
    apply emits_bind; [other_line | intros; apply emits_ret]. }
  destruct (String.prefix "cat " (strip raw)) eqn:Hcat.
  { pose proof (argument_not_blank raw "cat" Hcat) as Harg.
    change (String.length ("cat" ++ " ")) with 4%nat in Harg; rewrite Harg.
    apply emits_bind; [apply call_tool_quiet|]; intros result.
    apply emits_bind; [other_line | intros; apply emits_ret]. }
  destruct (String.eqb (strip raw) "ls").
  { apply emits_bind; [apply call_tool_quiet|]; intros result.
    apply emits_bind; [other_line | intros; apply emits_ret]. }
  apply emits_bind; [other_line | intros; apply emits_ret].
Qed.

Lemma falls_ret_false : falls (ret false).
Proof.
  intros s; exists (Ok false), s; split; [reflexivity|].
  split; [apply same_session_refl | now left].
Qed.

Lemma falls_bind {A} (m : M A) (k : A -> M bool) :
  settles m -> (forall a, falls (k a)) -> falls (bind m k).
Proof.
  intros Hm Hk s; destruct (Hm s) as ([a|e] & s1 & E1 & S1); unfold bind; rewrite E1.
  - destruct (Hk a s1) as (r & s2 & E2 & S2 & R2); exists r, s2.
    split; [exact E2 | split; [now apply (same_session_trans s s1 s2) | exact R2]].
  - exists (Raise e), s1; split; [reflexivity | split; [exact S1 | right; now exists e]].
Qed.

Lemma settles_print_tools tools : settles (print_tools b tools).
Proof.
  induction tools as [|tool rest IH]; simpl; [apply lands_settles, lands_ret|].
  apply settles_bind; [apply settles_lift|]; intros name.
  apply settles_bind; [apply settles_lift|]; intros description.
  apply settles_bind; [apply lands_settles, lands_print | intros _; exact IH].
Qed.

Lemma falls_print_false line : falls (print line ;;; ret false).
Proof.
  apply falls_bind; [apply lands_settles, lands_print | intros _; apply falls_ret_false].
Qed.

(** The session relation of a wrapper: its request when the server is
    started, nothing otherwise. *)
Let wrapped (method : string) (params : JSON) (s s' : state) : Prop :=
  (process s <> None -> sent_one w method params s s') /\
  (process s = None -> same_session s s').

Lemma wrapped_then method params s s1 s2 :
  wrapped method params s s1 -> same_session s1 s2 -> wrapped method params s s2.
Proof.
  intros [Hon Hoff] S2; split; intros H.
  - destruct (Hon H) as (P & I & W), S2 as (_ & P2 & I2 & W2).
    repeat split; congruence.
  - now apply (same_session_trans s s1 s2); [apply Hoff|].
Qed.

(** A turn that calls a wrapper and goes on within the session. *)
Lemma turn_with_wrapper {A} method params (m : M A) (k : A -> M bool) s :
  (exists a s1, m s = (Ok a, s1) /\ wrapped method params s s1) ->
  (forall a, falls (k a)) ->
  exists s',
    try_except (bind m k)
      (fun e => Some (print ("❌ Error: " ++ exn_str e) ;;; ret false)) s
    = (Ok false, s') /\
    wrapped method params s s'.
Proof.
  intros (a & s1 & E1 & W1) Hk; unfold try_except, bind at 1; rewrite E1.
  destruct (Hk a s1) as (r & s2 & E2 & S2 & [-> | (e & ->)]); rewrite E2.
  - exists s2; split; [reflexivity | now apply (wrapped_then _ _ s s1 s2)].
  - eexists; split; [reflexivity|].
    apply (wrapped_then _ _ s s1 s2 W1) in S2.
    apply (wrapped_then _ _ s s2 _ S2).
    repeat split; simpl; now rewrite written_app, app_nil_r.
Qed.

(** A turn that calls no wrapper. *)
Lemma turn_without_wrapper (m : M bool) s :
  falls m ->
  exists s',
    try_except m (fun e => Some (print ("❌ Error: " ++ exn_str e) ;;; ret false)) s
    = (Ok false, s') /\
    same_session s s'.
Proof.
  intros Hm; unfold try_except.
  destruct (Hm s) as (r & s1 & E1 & S1 & [-> | (e & ->)]); rewrite E1.
  - now exists s1.
  - eexists; split; [reflexivity|].
    apply (same_session_trans s s1 _ S1).
    repeat split; simpl; now rewrite written_app, app_nil_r.
Qed.

(** What a turn does, command by command. *)
Lemma turn_spec raw s :
  exists stop s',
    interactive_turn b w raw s = (Ok stop, s') /\
    (stop = true <-> strip raw = "quit") /\
    (strip raw = "" \/ strip raw = "quit" -> s' = s) /\
    (process s <> None -> turn_effect w (strip raw) s s') /\
    (process s = None -> same_session s s').
Proof.
  unfold interactive_turn, turn_effect, command_request; cbv zeta.
  destruct (String.eqb_spec (strip raw) "") as [E0 | N0].
  { exists false, s; rewrite E0; repeat split; try easy; apply same_session_refl. }
  destruct (String.eqb_spec (strip raw) "quit") as [E1 | N1].
  { exists true, s; repeat split; try easy; apply same_session_refl. }
  assert (Hstop : false = true <-> strip raw = "quit") by easy.
  assert (Hs : forall s', strip raw = "" \/ strip raw = "quit" -> s' = s)
    by (intros s' [H | H]; easy).
  destruct (String.eqb (strip raw) "list").
  { destruct (turn_with_wrapper "tools/list" JNull (list_tools b w)
                (fun tools =>
                   print (nl ++ "📋 Available Tools:") ;;;
                   items <- lift (py_iter b tools) ;;
                   print_tools b items ;;; ret false) s) as (s' & E & Hon & Hoff).
    - destruct (list_tools_lands b w s) as (a & s1 & E & H); now exists a, s1.
    - intros tools; apply falls_bind; [apply lands_settles, lands_print|]; intros _.
      apply falls_bind; [apply settles_lift|]; intros items.
      apply falls_bind; [apply settles_print_tools | intros _; apply falls_ret_false].
    - exists false, s'; split; [exact E|]; split; [exact Hstop|];
        split; [apply Hs|]; split; assumption. }
  destruct (String.prefix "ls " (strip raw)) eqn:Hls.
  { pose proof (argument_not_blank raw "ls" Hls) as Harg.
    change (String.length ("ls" ++ " ")) with 3%nat in Harg; rewrite Harg.
    destruct (turn_with_wrapper "tools/call"
                (call_params "list_files"
                   (JDict [("path", JStr (strip (drop 3 (strip raw))))]))
                (call_tool b w "list_files"
                   (JDict [("path", JStr (strip (drop 3 (strip raw))))]))
                (fun result => print (nl ++ to_str b result) ;;; ret false) s)
      as (s' & E & Hon & Hoff).
    - destruct (call_tool_lands b w "list_files"
                  (JDict [("path", JStr (strip (drop 3 (strip raw))))]) s)
        as (a & s1 & E & H); now exists a, s1.
    - intros result; apply falls_print_false.
    - exists false, s'; split; [exact E|]; split; [exact Hstop|];
        split; [apply Hs|]; split; assumption. }
  destruct (String.prefix "cat " (strip raw)) eqn:Hcat.
  { pose proof (argument_not_blank raw "cat" Hcat) as Harg.
    change (String.length ("cat" ++ " ")) with 4%nat in Harg; rewrite Harg.
    destruct (turn_with_wrapper "tools/call"
                (call_params "read_file"
                   (JDict [("path", JStr (strip (drop 4 (strip raw))))]))
                (call_tool b w "read_file"
                   (JDict [("path", JStr (strip (drop 4 (strip raw))))]))
                (fun result => print (nl ++ to_str b result) ;;; ret false) s)
      as (s' & E & Hon & Hoff).
    - destruct (call_tool_lands b w "read_file"
                  (JDict [("path", JStr (strip (drop 4 (strip raw))))]) s)
        as (a & s1 & E & H); now exists a, s1.
    - intros result; apply falls_print_false.
    - exists false, s'; split; [exact E|]; split; [exact Hstop|];
        split; [apply Hs|]; split; assumption. }
  destruct (String.eqb (strip raw) "ls").
  { destruct (turn_with_wrapper "tools/call"
                (call_params "list_files" (JDict [("path", JStr ".")]))
                (call_tool b w "list_files" (JDict [("path", JStr ".")]))
                (fun result => print (nl ++ to_str b result) ;;; ret false) s)
      as (s' & E & Hon & Hoff).
    - destruct (call_tool_lands b w "list_files" (JDict [("path", JStr ".")]) s)
        as (a & s1 & E & H); now exists a, s1.
    - intros result; apply falls_print_false.
    - exists false, s'; split; [exact E|]; split; [exact Hstop|];
        split; [apply Hs|]; split; assumption. }
  destruct (turn_without_wrapper
              (print "❌ Unknown command. Type 'quit' to exit." ;;; ret false) s)
    as (s' & E & S); [apply falls_print_false|].
  exists false, s'; split; [exact E|]; split; [exact Hstop|];
    split; [apply Hs|]; split; intros _; exact S.
Qed.

(** X20. A turn never raises, and it leaves the loop exactly when the
    line typed, stripped, is [quit]; on [quit] and on a blank line it does
    nothing at all. *)
Theorem turn_stops_only_on_quit (raw : string) (s : state) :
  exists stop s',
    interactive_turn b w raw s = (Ok stop, s') /\
    (stop = true <-> strip raw = "quit") /\
    (strip raw = "" \/ strip raw = "quit" -> s' = s).
Proof.
  destruct (turn_spec raw s) as (stop & s' & E & Hq & Hs & _).
  now exists stop, s'.
Qed.

(** X21. A turn sends at most one request, the one of its command:
    [list] sends [tools/list]; [ls x] and [cat x] send a [tools/call] of
    [list_files] and [read_file] with the stripped [x] as path, never the
    default; [ls] alone sends [list_files] with [.]; anything else sends
    nothing. The request carries the current id and the counter moves on
    by one; on a client whose server is not started nothing is sent. *)
Theorem turn_sends_the_request_of_its_command (raw : string) (s : state) :
  exists stop s',
    interactive_turn b w raw s = (Ok stop, s') /\
    (process s <> None -> turn_effect w (strip raw) s s') /\
    (process s = None -> same_session s s').
Proof.
  destruct (turn_spec raw s) as (stop & s' & E & _ & _ & Hon & Hoff).
  now exists stop, s'.
Qed.

End Turn.

Lemma turn_sends_the_request_of_its_command_witness :
  exists stop s',
    interactive_turn DemoApi.builtins (DemoApi.child DemoApi.listing_response)
      "ls   src " DemoApi.started = (Ok stop, s') /\
    sent_one (DemoApi.child DemoApi.listing_response) "tools/call"
      (call_params "list_files" (JDict [("path", JStr "src")]))
      DemoApi.started s'.
Proof.
  destruct (turn_sends_the_request_of_its_command DemoApi.builtins
              (DemoApi.child DemoApi.listing_response) "ls   src " DemoApi.started)
    as (stop & s' & E & Hon & _).
  exists stop, s'; split; [exact E|].
  apply Hon; discriminate.
Defined.

End ClientUiFacts.
